(** * s3-benchmark: the sweep harness of the three benchmark scripts

  A shallow embedding of [download-benchmark.py], [upload-benchmark.py] and
  [tune-multipart.py], and the properties of their configuration sweep,
  throughput computation, result selection and persistence.

  Python values are modelled as follows.
  - [int] is [Z] (unbounded), [float] is the kernel's binary64 [float]
    with the IEEE operations of [PrimFloat].
  - [str] is [string]; the model covers ASCII text, which is what the
    configuration variables of the scripts hold. [str.lower] maps no
    character outside ASCII to a letter of 'true', 't', 'y' or 'yes', so
    the truth test on use_threads does not depend on this restriction.
  - exceptions are values of [exn]; a computation that may raise returns a
    [result].
  - the file system, the wall clock and the storage service are explicit
    state, threaded by the monad [M]. *)

From Stdlib Require Import ZArith String Ascii List Floats Lia Bool.
From stdpp Require Import gmap strings list pretty.

Open Scope Z_scope.

(** ** The Python runtime the scripts rely on *)

Module Py.

(** The [ValueError]s that the scripts can meet. *)
Inductive value_error :=
| InvalidIntLiteral (s : string)   (* int(s): invalid literal for int() with base 10 *)
| MaxEmptySequence                 (* max([]): max() arg is an empty sequence *)
| NegativeArgument.                (* os.urandom(n) with n < 0 *)

Inductive exn :=
| ValueError (why : value_error)
| ZeroDivisionError                (* float division by zero *)
| OverflowError                    (* int too large to convert to float *)
| AttributeError                   (* None.split *)
| FileNotFoundError (path : string)
| ClientError (code : string).     (* raised by the storage client *)

Inductive result (A : Type) :=
| Ok (a : A)
| Raise (e : exn).
Arguments Ok {A} a.
Arguments Raise {A} e.

#[global] Instance result_ret : MRet result := @Ok.
#[global] Instance result_bind : MBind result := fun A B f r =>
  match r with Ok a => f a | Raise e => Raise e end.
#[global] Instance result_fmap : FMap result := fun A B f r =>
  match r with Ok a => Ok (f a) | Raise e => Raise e end.

(** *** str.lower, str.split, membership in a list of strings *)

Definition lower_ascii (c : ascii) : ascii :=
  let n := nat_of_ascii c in
  if ((65 <=? n) && (n <=? 90))%nat then ascii_of_nat (n + 32) else c.

Fixpoint lower (s : string) : string :=
  match s with
  | EmptyString => EmptyString
  | String c r => String (lower_ascii c) (lower r)
  end.

(** [s.split(sep)] for a one-character separator: never the empty list. *)
Fixpoint split (sep : ascii) (s : string) : list string :=
  match s with
  | EmptyString => [EmptyString]
  | String c r =>
      if Ascii.eqb c sep then EmptyString :: split sep r
      else match split sep r with
           | [] => [String c EmptyString]
           | h :: t => String c h :: t
           end
  end.

(** [s in l] *)
Definition str_in (s : string) (l : list string) : bool :=
  existsb (String.eqb s) l.

(** *** int(str) *)

(** White space that [int] strips, in the ASCII range. *)
Definition is_space (c : ascii) : bool :=
  let n := nat_of_ascii c in
  (((9 <=? n) && (n <=? 13)) || ((28 <=? n) && (n <=? 32)))%nat.

Definition is_digit (c : ascii) : bool :=
  let n := nat_of_ascii c in ((48 <=? n) && (n <=? 57))%nat.

Definition digit_value (c : ascii) : Z := Z.of_nat (nat_of_ascii c) - 48.

Fixpoint lstrip (s : string) : string :=
  match s with
  | String c r => if is_space c then lstrip r else s
  | EmptyString => EmptyString
  end.

Fixpoint rstrip (s : string) : string :=
  match s with
  | EmptyString => EmptyString
  | String c r =>
      match rstrip r with
      | EmptyString => if is_space c then EmptyString else String c EmptyString
      | r' => String c r'
      end
  end.

Definition strip (s : string) : string := rstrip (lstrip s).

(** Decimal digits, with single underscores allowed between two digits.
    [after_digit] tells whether the previous character was a digit. *)
Fixpoint digits (acc : Z) (after_digit : bool) (s : string) : option Z :=
  match s with
  | EmptyString => if after_digit then Some acc else None
  | String c r =>
      if is_digit c then digits (10 * acc + digit_value c) true r
      else if Ascii.eqb c "_" then
             if after_digit then digits acc false r else None
      else None
  end.

Definition int (s : string) : result Z :=
  let body := strip s in
  let parsed :=
    match body with
    | String "+" r => digits 0 false r
    | String "-" r => Z.opp <$> digits 0 false r
    | _ => digits 0 false body
    end in
  match parsed with
  | Some n => Ok n
  | None => Raise (ValueError (InvalidIntLiteral s))
  end.

(** [list(map(f, xs))] for an [f] that may raise: the first failure wins. *)
Fixpoint list_map {A B} (f : A -> result B) (xs : list A) : result (list B) :=
  match xs with
  | [] => Ok []
  | x :: r => y ← f x; ys ← list_map f r; Ok (y :: ys)
  end.

(** *** float arithmetic *)

(** [float(n)]: the nearest binary64 value, ties to even. *)
Definition of_Z (n : Z) : float :=
  SF2Prim (binary_normalize prec emax n 0 false).

Definition int_to_float (n : Z) : result float :=
  let f := of_Z n in
  if is_infinity f then Raise OverflowError else Ok f.

(** [a / b] on floats. *)
Definition float_truediv (a b : float) : result float :=
  if (b =? 0)%float then Raise ZeroDivisionError else Ok (a / b)%float.

(** [n / b] with an [int] on the left: the int is converted first. *)
Definition int_truediv_float (n : Z) (b : float) : result float :=
  a ← int_to_float n; float_truediv a b.

(** *** max(iterable, key=...) *)

(** The running maximum is replaced only by a strictly greater key. *)
Fixpoint max_loop {A} (key : A -> float) (best : A) (rest : list A) : A :=
  match rest with
  | [] => best
  | x :: r => if (key best <? key x)%float then max_loop key x r
              else max_loop key best r
  end.

Definition max_by {A} (key : A -> float) (xs : list A) : result A :=
  match xs with
  | [] => Raise (ValueError MaxEmptySequence)
  | x :: r => Ok (max_loop key x r)
  end.

(** *** itertools.product of four iterables: the rightmost advances fastest *)

Definition product {A B C D} (a : list A) (b : list B) (c : list C) (d : list D)
  : list (A * B * C * D) :=
  flat_map (fun x =>
    flat_map (fun y =>
      flat_map (fun z =>
        List.map (fun w => (x, y, z, w)) d) c) b) a.

(** *** Values stored in result rows and documents *)

Inductive value :=
| Int (n : Z)
| Str (s : string)
| Float (x : float)
| Bool (b : bool).

(** [repr] of a float (the shortest decimal text that reads back as the
    same float) is the interpreter's; the development is parametric in it. *)
Class FloatRepr := float_repr : float -> string.

(** [str(v)] *)
Definition str `{FloatRepr} (v : value) : string :=
  match v with
  | Int n => pretty n
  | Str s => s
  | Float x => float_repr x
  | Bool b => if b then "True" else "False"
  end.

(** [f"{x:.2f}"]: the exact binary value of [x], rounded half-even to two
    decimals. *)
Definition round_half_even (n d : Z) : Z :=
  let q := n / d in
  let r := n mod d in
  match Z.compare (2 * r) d with
  | Lt => q
  | Gt => q + 1
  | Eq => if Z.even q then q else q + 1
  end.

Definition two_digits (n : Z) : string :=
  String (ascii_of_nat (48 + Z.to_nat (n / 10)))
    (String (ascii_of_nat (48 + Z.to_nat (n mod 10))) EmptyString).

Definition fixed2 (neg : bool) (hundredths : Z) : string :=
  ((if neg then "-" else "") +:+ pretty (hundredths / 100) +:+ "."
     +:+ two_digits (hundredths mod 100))%string.

Definition format_2f (x : float) : string :=
  match Prim2SF x with
  | S754_nan => "nan"
  | S754_infinity s => if s then "-inf" else "inf"
  | S754_zero s => fixed2 s 0
  | S754_finite s m e =>
      let h := if 0 <=? e then 100 * Zpos m * 2 ^ e
               else round_half_even (100 * Zpos m) (2 ^ (- e)) in
      fixed2 s h
  end.

End Py.

(** ** boto3's transfer configuration and the storage client *)

Module Boto.

(** [boto3.s3.transfer.TransferConfig(...)], with the four keywords the
    scripts set. *)
Record TransferConfig := {
  multipart_threshold : Z;
  max_concurrency : Z;
  multipart_chunksize : Z;
  use_threads : bool
}.

(** The two calls the scripts make on the client. The bucket is
    [os.getenv('S3_BUCKET_NAME')], which may be [None]. *)
Inductive request :=
| download_file (Bucket : option string) (Key Filename : string) (Config : TransferConfig)
| upload_file (Filename : string) (Bucket : option string) (Key : string)
    (Config : TransferConfig).

End Boto.

(** ** The world of a script: local files, wall clock, client, figures *)

Module Sys.
Import Py.

(** A local file. Of object payloads only the length matters. *)
Inductive file :=
| Blob (size : Z)
| Text (content : string).

Definition file_size (f : file) : Z :=
  match f with
  | Blob n => n
  | Text s => Z.of_nat (String.length s)
  end.

(** What one call of the client does: it may raise, it may change local
    files, and the clock has advanced when it returns. *)
Record effect := {
  raised : option exn;
  files_after : gmap string file;
  clock_after : float
}.

Definition client := Boto.request -> gmap string file -> float -> effect.

(** A figure handed to [plt.savefig]. Images are kept apart from [fs]. *)
Inductive chart :=
| Line (xs : list Z) (ys : list float)
| Scatter (xs : list Z) (ys : list float) (c : list Z) (s : list Z).

Record world := {
  fs : gmap string file;
  now : float;                          (* what time.time() returns *)
  transfers : list Boto.request;        (* client calls made so far *)
  figures : list (string * chart)       (* savefig calls made so far *)
}.

(** Computations of a script: state survives an exception. *)
Definition M (A : Type) : Type := world -> result A * world.

#[global] Instance M_ret : MRet M := fun A a w => (Ok a, w).
#[global] Instance M_bind : MBind M := fun A B f m w =>
  match m w with
  | (Ok a, w') => f a w'
  | (Raise e, w') => (Raise e, w')
  end.

Definition raise {A} (e : exn) : M A := fun w => (Raise e, w).

Definition lift {A} (r : result A) : M A := fun w => (r, w).

(** [time.time()] *)
Definition time : M float := fun w => (Ok (now w), w).

(** [os.path.getsize(path)] *)
Definition getsize (path : string) : M Z := fun w =>
  match fs w !! path with
  | Some f => (Ok (file_size f), w)
  | None => (Raise (FileNotFoundError path), w)
  end.

(** [os.remove(path)] *)
Definition remove (path : string) : M unit := fun w =>
  match fs w !! path with
  | Some _ => (Ok tt, {| fs := delete path (fs w); now := now w;
                         transfers := transfers w; figures := figures w |})
  | None => (Raise (FileNotFoundError path), w)
  end.

(** [with open(path, 'w') as f: f.write(content)]: the file is created or
    truncated, then holds exactly [content]. *)
Definition write_file (path : string) (content : file) : M unit := fun w =>
  (Ok tt, {| fs := <[path := content]> (fs w); now := now w;
             transfers := transfers w; figures := figures w |}).

(** [plt.savefig(output_file)] of the figure just drawn. *)
Definition savefig (output_file : string) (c : chart) : M unit := fun w =>
  (Ok tt, {| fs := fs w; now := now w; transfers := transfers w;
             figures := figures w ++ [(output_file, c)] |}).

(** One call of the client [s3]. *)
Definition call (s3 : client) (req : Boto.request) : M unit := fun w =>
  let e := s3 req (fs w) (now w) in
  let w' := {| fs := files_after e; now := clock_after e;
               transfers := transfers w ++ [req]; figures := figures w |} in
  match raised e with
  | Some x => (Raise x, w')
  | None => (Ok tt, w')
  end.

(** A client whose downloads keep the clock finite and store files whose
    sizes are byte counts below [2^63]. *)
Definition well_behaved (s3 : client) : Prop :=
  forall bucket key path config files clock,
    is_finite clock = true ->
    is_finite (clock_after (s3 (Boto.download_file bucket key path config) files clock))
      = true /\
    forall f,
      files_after (s3 (Boto.download_file bucket key path config) files clock) !! path
        = Some f ->
      0 <= file_size f < 2 ^ 63.

(** [os.getenv(name)] and [os.getenv(name, default)] read the environment,
    which no script writes. *)
Definition getenv (env : gmap string string) (name : string) : option string :=
  env !! name.

End Sys.

(** ** csv.writer (default dialect) and json.dump (indent=4) *)

Module Csv.
Import Py.

Definition dquote : ascii := ascii_of_nat 34.
Definition CR : ascii := ascii_of_nat 13.
Definition LF : ascii := ascii_of_nat 10.

Definition special (c : ascii) : bool :=
  Ascii.eqb c "," || Ascii.eqb c dquote || Ascii.eqb c CR || Ascii.eqb c LF.

Fixpoint needs_quotes (s : string) : bool :=
  match s with
  | EmptyString => false
  | String c r => special c || needs_quotes r
  end.

Fixpoint double_quotes (s : string) : string :=
  match s with
  | EmptyString => EmptyString
  | String c r =>
      if Ascii.eqb c dquote then String c (String c (double_quotes r))
      else String c (double_quotes r)
  end.

(** QUOTE_MINIMAL: a field is quoted only when it holds the delimiter,
    the quote character or a line break. *)
Definition field (s : string) : string :=
  if needs_quotes s
  then String dquote (double_quotes s +:+ String dquote EmptyString)
  else s.

Definition join (sep : string) (l : list string) : string :=
  match l with
  | [] => EmptyString
  | x :: r => fold_left (fun acc y => acc +:+ sep +:+ y) r x
  end.

Definition lineterminator : string := String CR (String LF EmptyString).

Definition writerow `{FloatRepr} (r : list value) : string :=
  join "," (List.map (fun v => field (str v)) r) +:+ lineterminator.

Definition writerows `{FloatRepr} (rows : list (list value)) : string :=
  fold_left (fun acc r => acc +:+ writerow r) rows EmptyString.

End Csv.

Module Json.
Import Py.

Definition hex_digit (n : nat) : ascii :=
  if (n <? 10)%nat then ascii_of_nat (48 + n) else ascii_of_nat (87 + n).

Definition backslash : ascii := ascii_of_nat 92.

(** One character of a JSON string, [ensure_ascii=True]. *)
Definition escape_char (c : ascii) : string :=
  let n := nat_of_ascii c in
  let esc x := String backslash (String x EmptyString) in
  if Ascii.eqb c Csv.dquote then esc Csv.dquote
  else if Ascii.eqb c backslash then esc backslash
  else if (n =? 10)%nat then esc "n"%char
  else if (n =? 13)%nat then esc "r"%char
  else if (n =? 9)%nat then esc "t"%char
  else if (n =? 8)%nat then esc "b"%char
  else if (n =? 12)%nat then esc "f"%char
  else if ((32 <=? n) && (n <=? 126))%nat then String c EmptyString
  else String backslash (String "u" (String "0" (String "0"
         (String (hex_digit (n / 16)) (String (hex_digit (n mod 16)) EmptyString))))).

Fixpoint escape (s : string) : string :=
  match s with
  | EmptyString => EmptyString
  | String c r => escape_char c +:+ escape r
  end.

Definition quoted (s : string) : string :=
  String Csv.dquote (escape s +:+ String Csv.dquote EmptyString).

Definition encode `{FloatRepr} (v : value) : string :=
  match v with
  | Int n => pretty n
  | Str s => quoted s
  | Float x =>
      if is_nan x then "NaN"
      else if (x =? infinity)%float then "Infinity"
      else if (x =? neg_infinity)%float then "-Infinity"
      else float_repr x
  | Bool b => if b then "true" else "false"
  end.

Definition newline : string := String Csv.LF EmptyString.

Definition member `{FloatRepr} (kv : string * value) : string :=
  "    " +:+ quoted (fst kv) +:+ ": " +:+ encode (snd kv).

(** [json.dump(d, f, indent=4)] of a dict with string keys, in insertion
    order. *)
Definition dump `{FloatRepr} (d : list (string * value)) : string :=
  match d with
  | [] => "{}"
  | _ => "{" +:+ newline
           +:+ Csv.join ("," +:+ newline) (List.map member d)
           +:+ newline +:+ "}"
  end.

End Json.

(** ** tune-multipart.py *)

Module Tune.
Import Py Sys.

(** [download_file(s3, bucket_name, object_key, download_path, config)] *)
Definition download_file (s3 : client) (bucket_name : option string)
    (object_key download_path : string) (config : Boto.TransferConfig) : M float :=
  start_time ← time;
  _ ← call s3 (Boto.download_file bucket_name object_key download_path config);
  end_time ← time;
  mret (end_time - start_time)%float.

(** [calculate_speed(time_taken, file_size)] *)
Definition calculate_speed (time_taken : float) (file_size : Z) : result float :=
  speed_bps ← int_truediv_float (file_size * 8) time_taken;
  speed_mbps ← float_truediv speed_bps 1e6;
  mret speed_mbps.

(** One element of [results]: the six-entry list appended by [main]. *)
Record row := {
  multipart_threshold : Z;      (* x[0] *)
  max_concurrency : Z;          (* x[1] *)
  multipart_chunksize : Z;      (* x[2] *)
  use_threads : string;         (* x[3] *)
  time_taken : float;           (* x[4] *)
  speed_mbps : float            (* x[5] *)
}.

Definition values (x : row) : list value :=
  [Int (multipart_threshold x); Int (max_concurrency x); Int (multipart_chunksize x);
   Str (use_threads x); Float (time_taken x); Float (speed_mbps x)].

Definition header : list value :=
  [Str "Multipart Threshold (bytes)"; Str "Max Concurrency";
   Str "Multipart Chunksize (bytes)"; Str "Use Threads";
   Str "Time Taken (s)"; Str "Download Speed (Mbps)"].

(** [save_results_to_csv(results, filename)] *)
Definition save_results_to_csv `{FloatRepr} (results : list row) (filename : string)
  : M unit :=
  write_file filename
    (Text (Csv.writerow header +:+ Csv.writerows (List.map values results))).

(** The marker size of one point: [100 if use == 'True' else 50]. *)
Definition marker_size (use : string) : Z :=
  if String.eqb use "True" then 100 else 50.

(** [plot_results(results, output_file)] *)
Definition plot_results (results : list row) (output_file : string) : M unit :=
  let multipart_thresholds := List.map multipart_threshold results in
  let max_concurrencies := List.map max_concurrency results in
  let use_threads := List.map use_threads results in
  let speeds := List.map speed_mbps results in
  savefig output_file
    (Scatter multipart_thresholds speeds max_concurrencies
       (List.map marker_size use_threads)).

(** [find_fastest_parameters(results)] *)
Definition find_fastest_parameters (results : list row)
  : result (list (string * value)) :=
  best_result ← max_by speed_mbps results;
  mret [("Multipart Threshold (bytes)", Int (multipart_threshold best_result));
        ("Max Concurrency", Int (max_concurrency best_result));
        ("Multipart Chunksize (bytes)", Int (multipart_chunksize best_result));
        ("Use Threads", Str (use_threads best_result));
        ("Time Taken (s)", Float (time_taken best_result));
        ("Download Speed (Mbps)", Float (speed_mbps best_result))].

(** [save_fastest_to_json(fastest_params, filename)] *)
Definition save_fastest_to_json `{FloatRepr} (fastest_params : list (string * value))
    (filename : string) : M unit :=
  write_file filename (Text (Json.dump fastest_params)).

(** [use_threads.lower() in ['true', '1', 't', 'y', 'yes']] *)
Definition use_threads_bool (use_threads : string) : bool :=
  str_in (lower use_threads) ["true"; "1"; "t"; "y"; "yes"]%string.

(** [list(map(int, os.getenv(name).split(',')))] *)
Definition int_list (v : option string) : result (list Z) :=
  match v with
  | None => Raise AttributeError
  | Some s => list_map int (split "," s)
  end.

(** [os.getenv(name).split(',')] *)
Definition str_list (v : option string) : result (list string) :=
  match v with
  | None => Raise AttributeError
  | Some s => Ok (split "," s)
  end.

(** The first four entries of a row, [x[0:4]]. *)
Definition combination (x : row) : Z * Z * Z * string :=
  (multipart_threshold x, max_concurrency x, multipart_chunksize x, use_threads x).

(** The [TransferConfig] built in the loop for one combination. *)
Definition config_of (c : Z * Z * Z * string) : Boto.TransferConfig :=
  let '(multipart_threshold, max_concurrency, multipart_chunksize, use_threads) := c in
  {| Boto.multipart_threshold := multipart_threshold;
     Boto.max_concurrency := max_concurrency;
     Boto.multipart_chunksize := multipart_chunksize;
     Boto.use_threads := use_threads_bool use_threads |}.

(** The body of the [for] loop of [main], for one combination: the row it
    appends. *)
Definition run (s3 : client) (bucket_name : option string)
    (object_key download_path : string) (c : Z * Z * Z * string) : M row :=
  let config := config_of c in
  let '(multipart_threshold, max_concurrency, multipart_chunksize, use_threads) := c in
  time_taken ← download_file s3 bucket_name object_key download_path config;
  file_size ← getsize download_path;
  speed_mbps ← lift (calculate_speed time_taken file_size);
  let x := {| multipart_threshold := multipart_threshold;
              max_concurrency := max_concurrency;
              multipart_chunksize := multipart_chunksize;
              use_threads := use_threads;
              time_taken := time_taken;
              speed_mbps := speed_mbps |} in
  _ ← remove download_path;
  mret x.

(** The [for] loop of [main] over [parameter_combinations]. *)
Fixpoint sweep (s3 : client) (bucket_name : option string)
    (object_key download_path : string)
    (parameter_combinations : list (Z * Z * Z * string)) (results : list row)
  : M (list row) :=
  match parameter_combinations with
  | [] => mret results
  | c :: rest =>
      x ← run s3 bucket_name object_key download_path c;
      sweep s3 bucket_name object_key download_path rest (results ++ [x])
  end.

(** [main()]. [s3] is what [create_s3_client()] returns and [timestamp] is
    [datetime.now().strftime('%Y%m%d_%H%M%S')]. *)
Definition main `{FloatRepr} (env : gmap string string) (s3 : client)
    (timestamp : string) : M unit :=
  let bucket_name := getenv env "S3_BUCKET_NAME" in
  tune_file_size ← lift (match getenv env "TUNE_FILE_SIZE" with
                         | Some s => int s
                         | None => Ok 1024
                         end);
  multipart_thresholds ← lift (int_list (getenv env "TUNE_MULTIPART_THRESHOLD"));
  max_concurrencies ← lift (int_list (getenv env "TUNE_MAX_CONCURRENCY"));
  multipart_chunksizes ← lift (int_list (getenv env "TUNE_MULTIPART_CHUNKSIZE"));
  use_threads_options ← lift (str_list (getenv env "TUNE_USE_THREADS"));
  let parameter_combinations :=
    product multipart_thresholds max_concurrencies multipart_chunksizes
      use_threads_options in
  let object_key := ("example_" +:+ pretty tune_file_size +:+ "mb.txt")%string in
  let download_path := ("downloaded_" +:+ pretty tune_file_size +:+ "mb.txt")%string in
  results ← sweep s3 bucket_name object_key download_path parameter_combinations [];
  let csv_file_name := ("tuning_results_" +:+ timestamp +:+ ".csv")%string in
  let plot_file_name := ("tuning_plot_" +:+ timestamp +:+ ".png")%string in
  let json_file_name := ("fastest_configuration_" +:+ timestamp +:+ ".json")%string in
  _ ← save_results_to_csv results csv_file_name;
  _ ← plot_results results plot_file_name;
  best_params ← lift (find_fastest_parameters results);
  save_fastest_to_json best_params json_file_name.

End Tune.

(** ** download-benchmark.py and upload-benchmark.py *)

(** What the two size sweeps share: the seven-entry result list, the
  environment defaults and the figure. *)
Module SizeSweep.
Import Py Sys.

(** One element of [results]. *)
Record row := {
  size : Z;                     (* row[0], in MB as configured *)
  time_taken : float;           (* row[1] *)
  speed_mbps : float;           (* row[2] *)
  multipart_threshold : Z;      (* row[3] *)
  max_concurrency : Z;          (* row[4] *)
  multipart_chunksize : Z;      (* row[5] *)
  use_threads : bool            (* row[6] *)
}.

Definition values (x : row) : list value :=
  [Int (size x); Float (time_taken x); Float (speed_mbps x);
   Int (multipart_threshold x); Int (max_concurrency x);
   Int (multipart_chunksize x); Bool (use_threads x)].

Definition default_file_sizes : string :=
  "100,500,1024,5120,10240,20480,51200,102400".

(** [int(os.getenv(name, default))] with an [int] default. *)
Definition int_env (env : gmap string string) (name : string) (default : Z)
  : result Z :=
  match getenv env name with
  | Some s => int s
  | None => Ok default
  end.

(** [os.getenv('USE_THREADS', 'True').lower() in ['true', '1', 't', 'y', 'yes']] *)
Definition use_threads_env (env : gmap string string) : bool :=
  str_in (lower (default "True"%string (getenv env "USE_THREADS")))
    ["true"; "1"; "t"; "y"; "yes"]%string.

(** The settings read at the start of [main], in the order they are read. *)
Definition settings (env : gmap string string)
  : result (list Z * Boto.TransferConfig) :=
  let file_sizes_str := default default_file_sizes (getenv env "FILE_SIZES") in
  file_sizes ← list_map int (split "," file_sizes_str);
  multipart_threshold ← int_env env "MULTIPART_THRESHOLD" (50 * 1024 * 1024);
  max_concurrency ← int_env env "MAX_CONCURRENCY" 10;
  multipart_chunksize ← int_env env "MULTIPART_CHUNKSIZE" (50 * 1024 * 1024);
  let use_threads := use_threads_env env in
  mret (file_sizes,
        {| Boto.multipart_threshold := multipart_threshold;
           Boto.max_concurrency := max_concurrency;
           Boto.multipart_chunksize := multipart_chunksize;
           Boto.use_threads := use_threads |}).

(** [plot_results(results, output_file)] *)
Definition plot_results (results : list row) (output_file : string) : M unit :=
  let file_sizes := List.map size results in
  let speeds := List.map speed_mbps results in
  savefig output_file (Line file_sizes speeds).

Definition mk_row (size : Z) (time_taken speed_mbps : float)
    (config : Boto.TransferConfig) : row :=
  {| size := size; time_taken := time_taken; speed_mbps := speed_mbps;
     multipart_threshold := Boto.multipart_threshold config;
     max_concurrency := Boto.max_concurrency config;
     multipart_chunksize := Boto.multipart_chunksize config;
     use_threads := Boto.use_threads config |}.

End SizeSweep.

Module Download.
Import Py Sys SizeSweep.

Definition download_file (s3 : client) (bucket_name : option string)
    (object_key download_path : string) (config : Boto.TransferConfig) : M float :=
  start_time ← time;
  _ ← call s3 (Boto.download_file bucket_name object_key download_path config);
  end_time ← time;
  mret (end_time - start_time)%float.

Definition calculate_speed (time_taken : float) (file_size : Z) : result float :=
  speed_bps ← int_truediv_float (file_size * 8) time_taken;
  speed_mbps ← float_truediv speed_bps 1e6;
  mret speed_mbps.

Definition header : list value :=
  [Str "File Size (MB)"; Str "Time Taken (s)"; Str "Download Speed (Mbps)";
   Str "Multipart Threshold (bytes)"; Str "Max Concurrency";
   Str "Multipart Chunksize (bytes)"; Str "Use Threads"].

Definition save_results_to_csv `{FloatRepr} (results : list row) (filename : string)
  : M unit :=
  write_file filename
    (Text (Csv.writerow header +:+ Csv.writerows (List.map values results))).

(** The body of the [for] loop of [main] for one size. *)
Definition run (s3 : client) (bucket_name : option string)
    (config : Boto.TransferConfig) (size : Z) : M row :=
  let object_key := ("example_" +:+ pretty size +:+ "mb.txt")%string in
  let download_path := ("downloaded_" +:+ pretty size +:+ "mb.txt")%string in
  time_taken ← download_file s3 bucket_name object_key download_path config;
  file_size ← getsize download_path;
  speed_mbps ← lift (calculate_speed time_taken file_size);
  let x := mk_row size time_taken speed_mbps config in
  _ ← remove download_path;
  mret x.

Fixpoint sweep (s3 : client) (bucket_name : option string)
    (config : Boto.TransferConfig) (file_sizes : list Z) (results : list row)
  : M (list row) :=
  match file_sizes with
  | [] => mret results
  | size :: rest =>
      x ← run s3 bucket_name config size;
      sweep s3 bucket_name config rest (results ++ [x])
  end.

Definition main `{FloatRepr} (env : gmap string string) (s3 : client)
    (timestamp : string) : M unit :=
  let bucket_name := getenv env "S3_BUCKET_NAME" in
  '(file_sizes, config) ← lift (settings env);
  let csv_file_name := ("download_results_" +:+ timestamp +:+ ".csv")%string in
  let plot_file_name := ("download_speeds_" +:+ timestamp +:+ ".png")%string in
  results ← sweep s3 bucket_name config file_sizes [];
  _ ← save_results_to_csv results csv_file_name;
  plot_results results plot_file_name.

End Download.

Module Upload.
Import Py Sys SizeSweep.

(** [create_dummy_file(file_name, size_in_mb)]: the file is opened (and so
    emptied) before [os.urandom] is evaluated. *)
Definition create_dummy_file (file_name : string) (size_in_mb : Z) : M unit :=
  _ ← write_file file_name (Blob 0);
  if size_in_mb * 1024 * 1024 <? 0 then raise (ValueError NegativeArgument)
  else write_file file_name (Blob (size_in_mb * 1024 * 1024)).

Definition upload_file (s3 : client) (bucket_name : option string)
    (file_name object_key : string) (config : Boto.TransferConfig) : M float :=
  start_time ← time;
  _ ← call s3 (Boto.upload_file file_name bucket_name object_key config);
  end_time ← time;
  mret (end_time - start_time)%float.

Definition calculate_speed (time_taken : float) (file_size : Z) : result float :=
  speed_bps ← int_truediv_float (file_size * 8) time_taken;
  speed_mbps ← float_truediv speed_bps 1e6;
  mret speed_mbps.

Definition header : list value :=
  [Str "File Size (MB)"; Str "Time Taken (s)"; Str "Upload Speed (Mbps)";
   Str "Multipart Threshold (bytes)"; Str "Max Concurrency";
   Str "Multipart Chunksize (bytes)"; Str "Use Threads"].

Definition save_results_to_csv `{FloatRepr} (results : list row) (filename : string)
  : M unit :=
  write_file filename
    (Text (Csv.writerow header +:+ Csv.writerows (List.map values results))).

(** The body of the [for] loop of [main] for one size. *)
Definition run (s3 : client) (bucket_name : option string)
    (config : Boto.TransferConfig) (size : Z) : M row :=
  let file_name := ("dummy_" +:+ pretty size +:+ "mb.txt")%string in
  let object_key := ("example_" +:+ pretty size +:+ "mb.txt")%string in
  _ ← create_dummy_file file_name size;
  time_taken ← upload_file s3 bucket_name file_name object_key config;
  file_size ← getsize file_name;
  speed_mbps ← lift (calculate_speed time_taken file_size);
  let x := mk_row size time_taken speed_mbps config in
  _ ← remove file_name;
  mret x.

Fixpoint sweep (s3 : client) (bucket_name : option string)
    (config : Boto.TransferConfig) (file_sizes : list Z) (results : list row)
  : M (list row) :=
  match file_sizes with
  | [] => mret results
  | size :: rest =>
      x ← run s3 bucket_name config size;
      sweep s3 bucket_name config rest (results ++ [x])
  end.

Definition main `{FloatRepr} (env : gmap string string) (s3 : client)
    (timestamp : string) : M unit :=
  let bucket_name := getenv env "S3_BUCKET_NAME" in
  '(file_sizes, config) ← lift (settings env);
  let csv_file_name := ("upload_results_" +:+ timestamp +:+ ".csv")%string in
  let plot_file_name := ("upload_speeds_" +:+ timestamp +:+ ".png")%string in
  results ← sweep s3 bucket_name config file_sizes [];
  _ ← save_results_to_csv results csv_file_name;
  plot_results results plot_file_name.

End Upload.

(** ** Sample clients and worlds, used to exercise the scripts *)

Module Samples.
Import Py Sys.

(** Every transfer takes one second; a download stores [n] bytes. *)
Definition steady (n : Z) : client := fun req files clock =>
  match req with
  | Boto.download_file _ _ path _ =>
      {| raised := None; files_after := <[path := Blob n]> files;
         clock_after := (clock + 1)%float |}
  | Boto.upload_file _ _ _ _ =>
      {| raised := None; files_after := files; clock_after := (clock + 1)%float |}
  end.


Definition start : world :=
  {| fs := ∅; now := 1700000000; transfers := []; figures := [] |}.

(** A stand-in for [repr] on floats, two decimals. *)
Definition repr2 : FloatRepr := format_2f.

Definition tuning_row (threshold : Z) (raw : string) (seconds mbps : float)
  : Tune.row :=
  {| Tune.multipart_threshold := threshold; Tune.max_concurrency := 10;
     Tune.multipart_chunksize := 8388608; Tune.use_threads := raw;
     Tune.time_taken := seconds; Tune.speed_mbps := mbps |}.

(** Three results, the last two tied at the highest speed. *)
Definition tied : list Tune.row :=
  [tuning_row 1 "True" 4 100; tuning_row 2 "true" 2 200; tuning_row 3 "yes" 2 200].

End Samples.

(** ** The formula the specification gives for throughput *)

Module Spec.

(** [throughput_mbps = subject_size_bytes * 8 / duration_seconds / 1e6] *)
Definition throughput_mbps (subject_size_bytes : Z) (duration_seconds : float)
  : float :=
  (Py.of_Z (subject_size_bytes * 8) / duration_seconds / 1e6)%float.

(** The specification's error classes, as the scripts raise them.
    ConfigurationError: what reading the settings can raise, the
    [ValueError] of [int] and the [AttributeError] of [None.split].
    EmptyResultError: the [ValueError] of [max] on an empty sequence. *)
Definition ConfigurationError (e : Py.exn) : Prop :=
  e = Py.AttributeError \/ exists s, e = Py.ValueError (Py.InvalidIntLiteral s).

Definition EmptyResultError (e : Py.exn) : Prop :=
  e = Py.ValueError Py.MaxEmptySequence.

End Spec.

(** ** Further clients, used to exercise failures *)

Module Cases.
Import Py Sys.


(** A client whose transfers take no measurable time. *)
Definition instant (n : Z) : client := fun req files clock =>
  match req with
  | Boto.download_file _ _ path _ =>
      {| raised := None; files_after := <[path := Blob n]> files; clock_after := clock |}
  | Boto.upload_file _ _ _ _ =>
      {| raised := None; files_after := files; clock_after := clock |}
  end.

(** The world right after a client call that had effect [e]. *)
Definition after_call (w : world) (req : Boto.request) (e : effect) : world :=
  {| fs := files_after e; now := clock_after e;
     transfers := transfers w ++ [req]; figures := figures w |}.

(** A client that stores [n] bytes, kept within the range of a file size,
    and takes one second, as long as the clock can still advance. *)
Definition ticking (n : Z) : client := fun req files clock =>
  let later := (clock + 1)%float in
  let clock' := if is_finite later then later else clock in
  match req with
  | Boto.download_file _ _ path _ =>
      {| raised := None;
         files_after := <[path := Blob (Z.max 0 (Z.min n (2 ^ 63 - 1)))]> files;
         clock_after := clock' |}
  | Boto.upload_file _ _ _ _ =>
      {| raised := None; files_after := files; clock_after := clock' |}
  end.

Definition config : Boto.TransferConfig :=
  {| Boto.multipart_threshold := 8388608; Boto.max_concurrency := 10;
     Boto.multipart_chunksize := 8388608; Boto.use_threads := true |}.

(** The settings that [main] of tune-multipart.py reads before its loop, in
    the order it reads them. *)
Definition tune_settings (env : gmap string string)
  : result (Z * list Z * list Z * list Z * list string) :=
  tune_file_size ← match getenv env "TUNE_FILE_SIZE" with
                   | Some s => int s
                   | None => Ok 1024
                   end;
  multipart_thresholds ← Tune.int_list (getenv env "TUNE_MULTIPART_THRESHOLD");
  max_concurrencies ← Tune.int_list (getenv env "TUNE_MAX_CONCURRENCY");
  multipart_chunksizes ← Tune.int_list (getenv env "TUNE_MULTIPART_CHUNKSIZE");
  use_threads_options ← Tune.str_list (getenv env "TUNE_USE_THREADS");
  mret (tune_file_size, multipart_thresholds, max_concurrencies,
        multipart_chunksizes, use_threads_options).

(** The number of commas of a text. *)
Fixpoint commas (s : string) : nat :=
  match s with
  | EmptyString => 0
  | String c r => if Ascii.eqb c "," then S (commas r) else commas r
  end.

(** Texts made of decimal digits and minus signs only. *)
Definition plain_char (c : ascii) : bool := is_digit c || Ascii.eqb c "-".

Fixpoint plain (s : string) : bool :=
  match s with
  | EmptyString => true
  | String c r => plain_char c && plain r
  end.

End Cases.

(** * Properties *)

(** ** The runtime model on small inputs *)

Section RuntimeChecks.
Import Py.

Example split_sizes : split "," "100,500,1024" = ["100"; "500"; "1024"]%string.
Proof. reflexivity. Qed.

Example split_keeps_empty_fields : split "," "a,,b," = ["a"; ""; "b"; ""]%string.
Proof. reflexivity. Qed.

Example split_empty_text : split "," "" = [""%string].
Proof. reflexivity. Qed.

Example int_spaces_and_sign : int " -12 " = Ok (-12) /\ int "+7" = Ok 7.
Proof. split; reflexivity. Qed.

Example int_underscores :
  int "1_000" = Ok 1000 /\
  int "1__0" = Raise (ValueError (InvalidIntLiteral "1__0")) /\
  int "_1" = Raise (ValueError (InvalidIntLiteral "_1")).
Proof. repeat split; reflexivity. Qed.

Example int_rejects :
  int "" = Raise (ValueError (InvalidIntLiteral "")) /\
  int "5MB" = Raise (ValueError (InvalidIntLiteral "5MB")) /\
  int "1.5" = Raise (ValueError (InvalidIntLiteral "1.5")).
Proof. repeat split; reflexivity. Qed.

Example lower_mixed_case : lower "TrUe" = "true"%string.
Proof. reflexivity. Qed.

(** Conversion rounds to nearest, ties to even, and overflows to an error. *)
Example of_Z_ties_to_even :
  of_Z (2 ^ 53 + 1) = of_Z (2 ^ 53) /\ of_Z (2 ^ 53 + 3) = of_Z (2 ^ 53 + 4).
Proof. split; vm_compute; reflexivity. Qed.

Example int_to_float_overflow :
  int_to_float (2 ^ 1024) = Raise OverflowError /\
  int_truediv_float (2 ^ 1024) 0 = Raise OverflowError /\
  int_truediv_float 8 0 = Raise ZeroDivisionError /\
  int_truediv_float 8 (-0) = Raise ZeroDivisionError.
Proof. repeat split; vm_compute; reflexivity. Qed.

Example format_2f_rounds_exact_value :
  format_2f 0.125 = "0.12"%string /\ format_2f 0.375 = "0.38"%string /\
  format_2f (-2.5) = "-2.50"%string /\ format_2f 1234 = "1234.00"%string.
Proof. repeat split; vm_compute; reflexivity. Qed.

Example csv_field_quoting :
  Csv.field "yes" = "yes"%string /\
  Csv.field "a b" = "a b"%string /\
  Csv.needs_quotes (String Csv.dquote "x") = true /\
  String.length (Csv.field (String Csv.dquote "x")) = 5%nat.
Proof. repeat split; reflexivity. Qed.

Example product_keeps_duplicates :
  product [1; 1] [2] [3] ["a"; "b"]%string
    = [(1, 2, 3, "a"); (1, 2, 3, "b"); (1, 2, 3, "a"); (1, 2, 3, "b")]%string.
Proof. reflexivity. Qed.

(** A whole run of the tuning script: four transfers, one figure, the table
    and the document written, the downloaded file removed. *)
Example tune_main_sample_run :
  let env : gmap string string :=
    <["TUNE_MULTIPART_THRESHOLD"%string := "8388608,16777216"%string]>
      (<["TUNE_MAX_CONCURRENCY"%string := "10"%string]>
         (<["TUNE_MULTIPART_CHUNKSIZE"%string := "8388608"%string]>
            (<["TUNE_USE_THREADS"%string := "True,False"%string]>
               (<["TUNE_FILE_SIZE"%string := "1"%string]> ∅)))) in
  let outcome :=
    @Tune.main Samples.repr2 env (Samples.steady 1000000) "t" Samples.start in
  fst outcome = Ok tt /\
  length (Sys.transfers (snd outcome)) = 4%nat /\
  length (Sys.figures (snd outcome)) = 1%nat /\
  dom (Sys.fs (snd outcome))
    = {["tuning_results_t.csv"%string; "fastest_configuration_t.json"%string]} /\
  Sys.fs (snd outcome) !! "fastest_configuration_t.json"%string
    = Some (Sys.Text (@Json.dump Samples.repr2
              [("Multipart Threshold (bytes)"%string, Int 8388608);
               ("Max Concurrency"%string, Int 10);
               ("Multipart Chunksize (bytes)"%string, Int 8388608);
               ("Use Threads"%string, Str "True");
               ("Time Taken (s)"%string, Float 1);
               ("Download Speed (Mbps)"%string, Float 8)])).
Proof.
  intros env outcome.
  split; [vm_compute; reflexivity|]. split; [vm_compute; reflexivity|].
  split; [vm_compute; reflexivity|]. split; vm_compute; reflexivity.
Qed.

End RuntimeChecks.

(** ** Order of binary64 values *)

Section FloatOrder.

Lemma SFcompare_opp x y c :
  SFcompare x y = Some c -> SFcompare y x = Some (CompOpp c).
Proof.
  destruct x as [[]|[]| |[] m1 e1], y as [[]|[]| |[] m2 e2]; simpl;
    intros Hc; inversion Hc; subst; clear Hc; try reflexivity;
    rewrite (Z.compare_antisym e1 e2);
    destruct (e1 ?= e2) eqn:E; simpl; try reflexivity;
    change (Pos.compare_cont Eq) with Pos.compare;
    rewrite (Pos.compare_antisym m1 m2);
    destruct (m1 ?= m2)%positive; reflexivity.
Qed.

Lemma SFcompare_None x y :
  SFcompare x y = None <-> x = S754_nan \/ y = S754_nan.
Proof.
  destruct x as [[]|[]| |[] m1 e1], y as [[]|[]| |[] m2 e2]; simpl;
    split; intros Hc; try discriminate; auto;
    destruct Hc; discriminate.
Qed.

Lemma SFcompare_refl x : x <> S754_nan -> SFcompare x x = Some Eq.
Proof.
  destruct x as [[]|[]| |[] m e]; simpl; intros Hx; try reflexivity;
    try congruence;
    rewrite Z.compare_refl; change (Pos.compare_cont Eq) with Pos.compare;
    rewrite Pos.compare_refl; reflexivity.
Qed.

Lemma SFcompare_trans x y z c1 c2 :
  SFcompare x y = Some c1 -> SFcompare y z = Some c2 ->
  c1 <> Gt -> c2 <> Gt ->
  SFcompare x z = Some (match c1 with Lt => Lt | _ => c2 end).
Proof.
  destruct x as [[]|[]| |[] m1 e1], y as [[]|[]| |[] m2 e2],
           z as [[]|[]| |[] m3 e3]; simpl;
    intros H1 H2; inversion H1; subst; clear H1;
    inversion H2; subst; clear H2; simpl; intros L1 L2;
    try congruence; try reflexivity;
    change (Pos.compare_cont Eq) with Pos.compare in *;
    repeat match goal with
      | H : context [Z.compare ?a ?b] |- _ => destruct (Z.compare_spec a b)
      | |- context [Z.compare ?a ?b] => destruct (Z.compare_spec a b)
      end;
    simpl in *; try congruence; try reflexivity; try lia; subst;
    repeat match goal with
      | H : context [Pos.compare ?a ?b] |- _ => destruct (Pos.compare_spec a b)
      | |- context [Pos.compare ?a ?b] => destruct (Pos.compare_spec a b)
      end;
    simpl in *; try congruence; try reflexivity; try lia.
Qed.

Lemma is_nan_spec x : is_nan x = true <-> Prim2SF x = S754_nan.
Proof.
  unfold is_nan. rewrite FloatAxioms.eqb_spec. unfold SFeqb. split.
  - intros Hn. destruct (Prim2SF x) eqn:E; try reflexivity;
      rewrite SFcompare_refl in Hn by discriminate; discriminate.
  - intros ->. reflexivity.
Qed.

Lemma not_nan_spec x : is_nan x = false <-> Prim2SF x <> S754_nan.
Proof.
  rewrite <- is_nan_spec. destruct (is_nan x); split; congruence.
Qed.

Lemma ltb_Lt x y :
  (x <? y)%float = true <-> SFcompare (Prim2SF x) (Prim2SF y) = Some Lt.
Proof.
  rewrite FloatAxioms.ltb_spec. unfold SFltb.
  destruct (SFcompare (Prim2SF x) (Prim2SF y)) as [[]|]; split; congruence.
Qed.

Lemma leb_not_Gt x y :
  (x <=? y)%float = true <->
  exists c, SFcompare (Prim2SF x) (Prim2SF y) = Some c /\ c <> Gt.
Proof.
  rewrite FloatAxioms.leb_spec. unfold SFleb.
  destruct (SFcompare (Prim2SF x) (Prim2SF y)) as [[]|]; split;
    try congruence; try (intros _; eexists; split; [reflexivity|congruence]);
    intros (c & Hc & Hn); congruence.
Qed.

Lemma ltb_irrefl x : (x <? x)%float = false.
Proof.
  destruct (x <? x)%float eqn:E; [|reflexivity].
  apply ltb_Lt in E.
  destruct (Prim2SF x) eqn:Ex; try discriminate;
    rewrite SFcompare_refl in E by discriminate; discriminate.
Qed.

Lemma ltb_leb_trans x y z :
  (x <? y)%float = true -> (y <=? z)%float = true -> (x <? z)%float = true.
Proof.
  rewrite !ltb_Lt, leb_not_Gt. intros H1 (c & H2 & Hc).
  rewrite (SFcompare_trans _ _ _ _ _ H1 H2); [reflexivity|congruence|exact Hc].
Qed.

Lemma ltb_leb x y : (x <? y)%float = true -> (x <=? y)%float = true.
Proof.
  rewrite ltb_Lt, leb_not_Gt. intros H. exists Lt. split; [exact H|congruence].
Qed.

Lemma ltb_trans x y z :
  (x <? y)%float = true -> (y <? z)%float = true -> (x <? z)%float = true.
Proof. intros H1 H2. eapply ltb_leb_trans; [exact H1|apply ltb_leb, H2]. Qed.

(** Without NaN the order is total. *)
Lemma not_ltb_leb x y :
  is_nan x = false -> is_nan y = false ->
  (x <? y)%float = false -> (y <=? x)%float = true.
Proof.
  rewrite !not_nan_spec. intros Hx Hy Hlt.
  destruct (SFcompare (Prim2SF x) (Prim2SF y)) as [c|] eqn:E.
  - apply leb_not_Gt. exists (CompOpp c). split; [apply SFcompare_opp, E|].
    destruct c; simpl; try congruence.
    apply ltb_Lt in E. congruence.
  - apply SFcompare_None in E. tauto.
Qed.

Lemma not_leb_ltb x y :
  is_nan x = false -> is_nan y = false ->
  (x <=? y)%float = false -> (y <? x)%float = true.
Proof.
  intros Hx Hy Hle.
  destruct (y <? x)%float eqn:E; [reflexivity|].
  rewrite (not_ltb_leb y x Hy Hx E) in Hle. discriminate.
Qed.

Lemma ltb_not_eqb x y : (x <? y)%float = true -> (y =? x)%float = false.
Proof.
  rewrite ltb_Lt, FloatAxioms.eqb_spec. unfold SFeqb. intros H.
  rewrite (SFcompare_opp _ _ _ H). reflexivity.
Qed.

End FloatOrder.

(** ** The selector *)

Section Selector.
Import Py.
Context {A : Type} (key : A -> float).

Lemma max_loop_spec (rest pre : list A) (b : A) (ib : nat) :
  pre !! ib = Some b ->
  (forall x, x ∈ pre -> (key b <? key x)%float = false) ->
  (forall j x, (j < ib)%nat -> pre !! j = Some x -> (key b <=? key x)%float = false) ->
  exists i,
    (pre ++ rest) !! i = Some (max_loop key b rest) /\
    (forall x, x ∈ pre ++ rest -> (key (max_loop key b rest) <? key x)%float = false) /\
    (forall j x, (j < i)%nat -> (pre ++ rest) !! j = Some x ->
                 (key (max_loop key b rest) <=? key x)%float = false).
Proof.
  revert pre b ib. induction rest as [|y rest IH]; intros pre b ib Hb Hmax Hfirst.
  - simpl. rewrite app_nil_r. exists ib. auto.
  - simpl. replace (pre ++ y :: rest) with ((pre ++ [y]) ++ rest)
      by (rewrite <- app_assoc; reflexivity).
    destruct (key b <? key y)%float eqn:E.
    + apply (IH (pre ++ [y]) y (length pre)).
      * rewrite lookup_app_r by lia. rewrite Nat.sub_diag. reflexivity.
      * intros x Hx. apply elem_of_app in Hx as [Hx|Hx].
        -- destruct (key y <? key x)%float eqn:E2; [|reflexivity].
           specialize (Hmax x Hx). rewrite (ltb_trans _ _ _ E E2) in Hmax.
           discriminate.
        -- apply list_elem_of_singleton in Hx as ->. apply ltb_irrefl.
      * intros j x Hj Hx. rewrite lookup_app_l in Hx by exact Hj.
        destruct (key y <=? key x)%float eqn:E2; [|reflexivity].
        assert (Hin : x ∈ pre) by (apply list_elem_of_lookup; eauto).
        specialize (Hmax x Hin). rewrite (ltb_leb_trans _ _ _ E E2) in Hmax.
        discriminate.
    + apply (IH (pre ++ [y]) b ib).
      * rewrite lookup_app_l; [exact Hb|]. apply lookup_lt_Some in Hb. exact Hb.
      * intros x Hx. apply elem_of_app in Hx as [Hx|Hx]; [auto|].
        apply list_elem_of_singleton in Hx as ->. exact E.
      * intros j x Hj Hx. apply (Hfirst j x Hj).
        rewrite lookup_app_l in Hx; [exact Hx|].
        apply lookup_lt_Some in Hb. lia.
Qed.

End Selector.


Section BestConfiguration.
Import Py.

(** C1. On a non-empty result list [find_fastest_parameters] returns the
    fields of a row [best] of the list, at some position [i], such that
    no row has a strictly greater speed and no row before position [i]
    has a speed that [best] is below or equal to. When no speed is NaN,
    this is: every speed is at most that of [best], and every earlier
    row is strictly slower, so among rows of maximal speed the first in
    insertion order is returned. *)
Theorem find_fastest_parameters_first_maximal (results : list Tune.row) :
  results <> [] ->
  exists (i : nat) (best : Tune.row),
    results !! i = Some best /\
    Tune.find_fastest_parameters results =
      Ok [("Multipart Threshold (bytes)"%string, Int (Tune.multipart_threshold best));
          ("Max Concurrency"%string, Int (Tune.max_concurrency best));
          ("Multipart Chunksize (bytes)"%string, Int (Tune.multipart_chunksize best));
          ("Use Threads"%string, Str (Tune.use_threads best));
          ("Time Taken (s)"%string, Float (Tune.time_taken best));
          ("Download Speed (Mbps)"%string, Float (Tune.speed_mbps best))] /\
    (forall x, x ∈ results ->
       (Tune.speed_mbps best <? Tune.speed_mbps x)%float = false) /\
    (forall j x, (j < i)%nat -> results !! j = Some x ->
       (Tune.speed_mbps best <=? Tune.speed_mbps x)%float = false) /\
    ((forall x, x ∈ results -> is_nan (Tune.speed_mbps x) = false) ->
     (forall x, x ∈ results ->
        (Tune.speed_mbps x <=? Tune.speed_mbps best)%float = true) /\
     (forall j x, (j < i)%nat -> results !! j = Some x ->
        (Tune.speed_mbps x <? Tune.speed_mbps best)%float = true)).
Proof.
  destruct results as [|x0 rest]; [congruence|]. intros _.
  destruct (max_loop_spec Tune.speed_mbps rest [x0] x0 0%nat) as (i & Hi & Hmax & Hfirst).
  - reflexivity.
  - intros x Hx. apply list_elem_of_singleton in Hx as ->. apply ltb_irrefl.
  - intros j x Hj. lia.
  - simpl in Hi, Hmax, Hfirst.
    exists i, (max_loop Tune.speed_mbps x0 rest).
    split; [exact Hi|]. split; [reflexivity|].
    split; [exact Hmax|]. split; [exact Hfirst|].
    intros Hnan.
    assert (Hb : is_nan (Tune.speed_mbps (max_loop Tune.speed_mbps x0 rest)) = false).
    { apply Hnan. apply list_elem_of_lookup. eauto. }
    split.
    + intros x Hx. apply not_ltb_leb; auto.
    + intros j x Hj Hx. apply not_leb_ltb; eauto.
      apply Hnan. apply list_elem_of_lookup. eauto.
Qed.

(** C6. On the empty result list the selector fails, with the error of
    [max] on an empty sequence, and no document is returned. *)
Theorem find_fastest_parameters_empty :
  exists e, Tune.find_fastest_parameters [] = Raise e /\ Spec.EmptyResultError e.
Proof. exists (ValueError MaxEmptySequence). split; reflexivity. Qed.

(** Of three results whose last two tie at the highest speed, the second
    is returned. *)
Lemma find_fastest_parameters_first_maximal_witness :
  Samples.tied <> [] /\
  exists i best,
    Samples.tied !! i = Some best /\
    Tune.find_fastest_parameters Samples.tied
      = Ok [("Multipart Threshold (bytes)"%string, Int 2);
            ("Max Concurrency"%string, Int 10);
            ("Multipart Chunksize (bytes)"%string, Int 8388608);
            ("Use Threads"%string, Str "true");
            ("Time Taken (s)"%string, Float 2);
            ("Download Speed (Mbps)"%string, Float 200)] /\
    (forall x, x ∈ Samples.tied ->
       (Tune.speed_mbps best <? Tune.speed_mbps x)%float = false).
Proof.
  split; [discriminate|].
  destruct (find_fastest_parameters_first_maximal Samples.tied)
    as (i & best & Hi & Hdoc & Hmax & _); [discriminate|].
  exists i, best. split; [exact Hi|]. split; [reflexivity|exact Hmax].
Defined.

End BestConfiguration.

(** ** Conversion of integers to binary64 *)

Section FloatConversion.
Import Py.

Lemma digits2_size p : digits2_pos p = Pos.size p.
Proof. induction p; simpl; congruence. Qed.

Lemma digits2_log2 p : Zpos (digits2_pos p) = Z.log2 (Zpos p) + 1.
Proof.
  rewrite digits2_size. destruct p; simpl; rewrite ?Pos2Z.inj_succ; lia.
Qed.

Lemma Zdigits2_log2 m : 0 < m -> Zdigits2 m = Z.log2 m + 1.
Proof. destruct m; try lia. intros _. apply digits2_log2. Qed.

Lemma shr_m_shr_1 r : 0 <= shr_m r -> shr_m (shr_1 r) = Z.div2 (shr_m r).
Proof. destruct r as [[|[p|p|]|p] b s]; simpl; try reflexivity; lia. Qed.

Lemma shr_m_iter p : forall r,
  0 <= shr_m r -> shr_m (SpecFloat.iter_pos shr_1 p r) = Z.shiftr (shr_m r) (Zpos p).
Proof.
  assert (Hd : forall r, 0 <= shr_m r -> 0 <= shr_m (shr_1 r)).
  { intros r Hr. rewrite shr_m_shr_1 by exact Hr. apply Z.div2_nonneg, Hr. }
  induction p as [p IH|p IH|]; intros r Hr; simpl SpecFloat.iter_pos.
  - rewrite IH, IH, shr_m_shr_1 by (rewrite ?IH; try apply Z.shiftr_nonneg; auto).
    rewrite Z.div2_spec, !Z.shiftr_shiftr by lia. f_equal. lia.
  - rewrite IH, IH by (rewrite ?IH; try apply Z.shiftr_nonneg; auto).
    rewrite !Z.shiftr_shiftr by lia. f_equal. lia.
  - rewrite shr_m_shr_1 by exact Hr. apply Z.div2_spec.
Qed.

Lemma iter_xO_value k m : Zpos (Pos.iter xO m k) = Zpos m * 2 ^ Zpos k.
Proof.
  revert m. induction k using Pos.peano_ind; intros m.
  - simpl. lia.
  - rewrite Pos.iter_succ, Pos2Z.inj_xO, IHk, Pos2Z.inj_succ, Z.pow_succ_r by lia. lia.
Qed.


Lemma shr_fexp_spec m e l :
  0 < m -> -1074 <= e ->
  let k := Z.max 0 (Z.log2 m - 52) in
  shr_m (fst (shr_fexp prec emax m e l)) = Z.shiftr m k /\
  snd (shr_fexp prec emax m e l) = e + k.
Proof.
  intros Hm He k. unfold shr_fexp, fexp, SpecFloat.emin, prec, emax.
  rewrite (Zdigits2_log2 m Hm).
  assert (Hr : shr_m (shr_record_of_loc m l) = m) by (destruct l as [|[]]; reflexivity).
  assert (Hl := Z.log2_nonneg m).
  destruct (Z.max (Z.log2 m + 1 + e - 53) (3 - 1024 - 53) - e) as [|p|p] eqn:En;
    unfold shr; simpl fst; simpl snd.
  - replace k with 0 by lia. rewrite Z.shiftr_0_r. split; [exact Hr|lia].
  - rewrite shr_m_iter by lia. rewrite Hr. replace k with (Zpos p) by lia.
    split; [reflexivity|lia].
  - replace k with 0 by lia. rewrite Z.shiftr_0_r. split; [exact Hr|lia].
Qed.

Lemma round_nearest_even_bounds m l :
  m <= round_nearest_even m l <= m + 1.
Proof. destruct l as [|[]]; simpl; try lia. destruct (Z.even m); lia. Qed.

Lemma binary_round_aux_finite sx m e l :
  0 < m -> -1074 <= e -> 52 <= Z.log2 m -> e + Z.log2 m <= 1022 ->
  exists m' e', binary_round_aux prec emax sx m e l = S754_finite sx m' e' /\
                bounded prec emax m' e' = true.
Proof.
  intros Hm He Hlo Hhi. unfold binary_round_aux.
  destruct (shr_fexp_spec m e l Hm He) as [H1 H2].
  destruct (shr_fexp prec emax m e l) as [mrs1 e1]. simpl in H1, H2.
  set (k := Z.max 0 (Z.log2 m - 52)) in *.
  set (m2 := round_nearest_even (shr_m mrs1) (loc_of_shr_record mrs1)).
  assert (Hl1 : Z.log2 (shr_m mrs1) = 52).
  { rewrite H1, Z.log2_shiftr by lia. lia. }
  assert (Hpos : forall a, 52 <= Z.log2 a -> 0 < a).
  { intros a Ha. destruct (Z.lt_ge_cases 0 a) as [|Hle]; [assumption|].
    rewrite (Z.log2_nonpos a) in Ha by lia. lia. }
  assert (Hp1 : 0 < shr_m mrs1) by (apply Hpos; lia).
  assert (Hb := round_nearest_even_bounds (shr_m mrs1) (loc_of_shr_record mrs1)).
  fold m2 in Hb.
  assert (Hl2 : 52 <= Z.log2 m2 <= 53).
  { split.
    - rewrite <- Hl1. apply Z.log2_le_mono. lia.
    - pose proof (Z.log2_le_mono m2 (Z.succ (shr_m mrs1)) ltac:(lia)).
      pose proof (Z.log2_succ_le (shr_m mrs1)). lia. }
  assert (Hp2 : 0 < m2) by lia.
  destruct (shr_fexp_spec m2 e1 loc_Exact Hp2) as [H3 H4]; [lia|].
  destruct (shr_fexp prec emax m2 e1 loc_Exact) as [mrs2 e2]. simpl in H3, H4.
  assert (Hl3 : Z.log2 (shr_m mrs2) = 52).
  { rewrite H3, Z.log2_shiftr by lia. lia. }
  assert (Hp3 : 0 < shr_m mrs2) by (apply Hpos; lia).
  destruct (shr_m mrs2) as [|m'|m'] eqn:Em; try lia.
  assert (He2 : e2 <= 971) by lia.
  unfold prec, emax. change (1024 - 53) with 971.
  rewrite (proj2 (Z.leb_le e2 971) He2).
  exists m', e2. split; [reflexivity|].
  unfold bounded, canonical_mantissa, fexp, SpecFloat.emin.
  rewrite digits2_log2, Hl3. change (1024 - 53) with 971.
  rewrite (proj2 (Z.leb_le e2 971) He2), andb_true_r.
  apply Z.eqb_eq. lia.
Qed.

Lemma binary_normalize_finite n :
  0 < n < 2 ^ 1023 ->
  exists m' e', binary_normalize prec emax n 0 false = S754_finite false m' e' /\
                valid_binary (S754_finite false m' e') = true.
Proof.
  intros [Hn Hhi]. destruct n as [|m|m]; try lia.
  assert (Hl : Z.log2 (Zpos m) < 1023) by (apply Z.log2_lt_pow2; lia).
  assert (Hl0 := Z.log2_nonneg (Zpos m)).
  unfold binary_normalize, binary_round, shl_align, fexp, SpecFloat.emin.
  rewrite digits2_log2, Z.add_0_r, Z.sub_0_r.
  change (Z.log2 (Z.pos m) + 1 - prec) with (Z.log2 (Z.pos m) + 1 - 53).
  change (3 - emax - prec) with (-1074).
  destruct (Z.max (Z.log2 (Z.pos m) + 1 - 53) (-1074)) as [|d|d] eqn:Ed.
  - apply binary_round_aux_finite; lia.
  - apply binary_round_aux_finite; lia.
  - apply binary_round_aux_finite; try lia.
    + rewrite iter_xO_value. rewrite Z.log2_mul_pow2 by lia. lia.
    + rewrite iter_xO_value. rewrite Z.log2_mul_pow2 by lia. lia.
Qed.

(** Every integer below [2^1023] converts to a finite float. *)
Lemma of_Z_finite n :
  0 <= n < 2 ^ 1023 -> is_infinity (of_Z n) = false /\ is_nan (of_Z n) = false.
Proof.
  intros [Hn Hhi]. destruct (Z.eq_dec n 0) as [->|Hne]; [split; reflexivity|].
  destruct (binary_normalize_finite n) as (m & e & Hb & Hv); [lia|].
  unfold of_Z. rewrite Hb.
  assert (Hp : Prim2SF (SF2Prim (S754_finite false m e)) = S754_finite false m e)
    by (apply Prim2SF_SF2Prim, Hv).
  split.
  - unfold is_infinity. rewrite FloatAxioms.eqb_spec, abs_spec, Hp. reflexivity.
  - apply not_nan_spec. rewrite Hp. discriminate.
Qed.

Lemma int_to_float_Ok n : 0 <= n < 2 ^ 1023 -> int_to_float n = Ok (of_Z n).
Proof.
  intros Hn. unfold int_to_float.
  destruct (of_Z_finite n Hn) as [-> _]. reflexivity.
Qed.

End FloatConversion.

(** ** Throughput *)

Section Throughput.
Import Py.

Lemma positive_nonzero t : (0 <? t)%float = true -> (t =? 0)%float = false.
Proof. apply ltb_not_eqb. Qed.

Lemma speed_of_bits n t :
  0 <= n < 2 ^ 1023 -> (t =? 0)%float = false ->
  (speed_bps ← int_truediv_float n t;
   speed_mbps ← float_truediv speed_bps 1e6;
   mret speed_mbps) = Ok (of_Z n / t / 1e6)%float.
Proof.
  intros Hn Ht. unfold int_truediv_float, float_truediv.
  rewrite (int_to_float_Ok n Hn). simpl. rewrite Ht. reflexivity.
Qed.

(** C2. For the size of a file (a byte count below [2^63]) and a positive
    duration, [calculate_speed] returns, in each of the three scripts,
    [subject_size_bytes * 8 / duration_seconds / 1e6] in float arithmetic. *)
Theorem calculate_speed_formula (subject_size_bytes : Z) (duration_seconds : float) :
  0 <= subject_size_bytes < 2 ^ 63 ->
  (0 <? duration_seconds)%float = true ->
  Download.calculate_speed duration_seconds subject_size_bytes
    = Ok (Spec.throughput_mbps subject_size_bytes duration_seconds) /\
  Upload.calculate_speed duration_seconds subject_size_bytes
    = Ok (Spec.throughput_mbps subject_size_bytes duration_seconds) /\
  Tune.calculate_speed duration_seconds subject_size_bytes
    = Ok (Spec.throughput_mbps subject_size_bytes duration_seconds).
Proof.
  intros Hs Ht. apply positive_nonzero in Ht.
  assert (Hn : 0 <= subject_size_bytes * 8 < 2 ^ 1023).
  { split; [lia|]. apply Z.lt_trans with (2 ^ 66); [|reflexivity].
    change (2 ^ 66) with (2 ^ 63 * 8). lia. }
  unfold Download.calculate_speed, Upload.calculate_speed, Tune.calculate_speed,
    Spec.throughput_mbps.
  rewrite (speed_of_bits _ _ Hn Ht). auto.
Qed.

Lemma calculate_speed_formula_witness :
  (0 <= 104857600 < 2 ^ 63) /\ (0 <? 2)%float = true /\
  Tune.calculate_speed 2 104857600 = Ok (Spec.throughput_mbps 104857600 2).
Proof.
  split; [lia|]. split; [reflexivity|].
  apply (calculate_speed_formula 104857600 2); [lia|reflexivity].
Defined.

End Throughput.

(** ** The sweep of tune-multipart.py *)

Section TuningSweep.
Import Py Sys.

Lemma bind_Ok {A B} (m : M A) (f : A -> M B) w b w' :
  (m ≫= f) w = (Ok b, w') ->
  exists a w1, m w = (Ok a, w1) /\ f a w1 = (Ok b, w').
Proof.
  unfold mbind, M_bind. destruct (m w) as [[a|e] w1]; [eauto|discriminate].
Qed.

Lemma flat_map_const_length {A B} (f : A -> list B) (n : nat) (l : list A) :
  (forall x, length (f x) = n) -> length (flat_map f l) = (length l * n)%nat.
Proof.
  intros Hf. induction l as [|x l IH]; simpl; [reflexivity|].
  rewrite length_app, Hf, IH. reflexivity.
Qed.

Lemma flat_map_const_lookup {A B} (f : A -> list B) (n : nat) (l : list A) i j x y :
  (forall x, length (f x) = n) ->
  l !! i = Some x -> f x !! j = Some y ->
  flat_map f l !! (i * n + j)%nat = Some y.
Proof.
  intros Hf. revert i. induction l as [|x0 l IH]; intros i Hi Hj; [done|].
  simpl. destruct i as [|i]; simpl in *.
  - inversion Hi; subst. rewrite lookup_app_l; [exact Hj|].
    apply lookup_lt_Some in Hj. exact Hj.
  - rewrite lookup_app_r by (rewrite Hf; lia).
    rewrite Hf. replace (n + i * n + j - n)%nat with (i * n + j)%nat by lia.
    apply IH; assumption.
Qed.

Lemma map_lookup {A B} (f : A -> B) (l : list A) i x :
  l !! i = Some x -> List.map f l !! i = Some (f x).
Proof.
  revert i. induction l as [|x0 l IH]; intros [|i] Hi; simpl in *;
    try discriminate; [congruence|auto].
Qed.

Lemma product_length {A B C D} (a : list A) (b : list B) (c : list C) (d : list D) :
  length (product a b c d) = (length a * length b * length c * length d)%nat.
Proof.
  unfold product.
  rewrite (flat_map_const_length _ (length b * length c * length d)); [lia|].
  intros x. rewrite (flat_map_const_length _ (length c * length d)); [lia|].
  intros y. rewrite (flat_map_const_length _ (length d)); [lia|].
  intros z. apply length_map.
Qed.

Lemma product_lookup {A B C D} (a : list A) (b : list B) (c : list C) (d : list D)
    i j k l x y z w :
  a !! i = Some x -> b !! j = Some y -> c !! k = Some z -> d !! l = Some w ->
  product a b c d !! (((i * length b + j) * length c + k) * length d + l)%nat
    = Some (x, y, z, w).
Proof.
  intros Ha Hb Hc Hd. unfold product.
  replace (((i * length b + j) * length c + k) * length d + l)%nat
    with (i * (length b * length c * length d)
          + (j * (length c * length d) + (k * length d + l)))%nat by lia.
  apply (flat_map_const_lookup _ _ a i _ x); [|exact Ha|].
  { intros x'. rewrite (flat_map_const_length _ (length c * length d)); [lia|].
    intros y'. rewrite (flat_map_const_length _ (length d)); [lia|].
    intros z'. apply length_map. }
  apply (flat_map_const_lookup _ _ b j _ y); [|exact Hb|].
  { intros y'. rewrite (flat_map_const_length _ (length d)); [lia|].
    intros z'. apply length_map. }
  apply (flat_map_const_lookup _ _ c k _ z); [|exact Hc|].
  { intros z'. apply length_map. }
  apply (map_lookup (fun w' => (x, y, z, w'))), Hd.
Qed.

(** What one completed run of the loop body has done. *)
Lemma tune_run_Ok s3 bucket_name object_key download_path c w x w1 :
  Tune.run s3 bucket_name object_key download_path c w = (Ok x, w1) ->
  let req := Boto.download_file bucket_name object_key download_path (Tune.config_of c) in
  let e := s3 req (fs w) (now w) in
  raised e = None /\
  Tune.combination x = c /\
  Tune.time_taken x = (clock_after e - now w)%float /\
  (exists f, files_after e !! download_path = Some f /\
             Tune.calculate_speed (Tune.time_taken x) (file_size f)
               = Ok (Tune.speed_mbps x)) /\
  transfers w1 = transfers w ++ [req] /\
  figures w1 = figures w /\
  now w1 = clock_after e.
Proof.
  destruct c as [[[th mc] cs] ut].
  unfold Tune.run, Tune.download_file, call, time, getsize, lift, remove.
  unfold mbind, M_bind, mret, M_ret. simpl.
  destruct (raised _) eqn:Er; [discriminate|]. simpl.
  destruct (files_after _ !! download_path) as [f|] eqn:Ef; [|discriminate].
  destruct (Tune.calculate_speed _ _) as [v|] eqn:Ev; [|discriminate].
  simpl. rewrite Ef. intros Hx. inversion Hx; subst; clear Hx. simpl.
  repeat split; eauto.
Qed.

Lemma tune_sweep_Ok s3 bucket_name object_key download_path combos :
  forall acc w results w1,
  Tune.sweep s3 bucket_name object_key download_path combos acc w = (Ok results, w1) ->
  exists rows,
    results = acc ++ rows /\
    List.map Tune.combination rows = combos /\
    transfers w1 = transfers w ++
      List.map (fun c => Boto.download_file bucket_name object_key download_path
                           (Tune.config_of c)) combos /\
    figures w1 = figures w.
Proof.
  induction combos as [|c rest IH]; intros acc w results w1 Hs.
  - inversion Hs; subst. exists []. rewrite !app_nil_r. auto.
  - simpl in Hs. apply bind_Ok in Hs as (x & w0 & Hrun & Hs).
    apply tune_run_Ok in Hrun as (_ & Hc & _ & _ & Ht & Hf & _).
    apply IH in Hs as (rows & -> & Hrows & Ht' & Hf').
    exists (x :: rows). rewrite <- app_assoc. simpl.
    rewrite Hc, Hrows, Ht', Ht, <- app_assoc, Hf', Hf. auto.
Qed.

End TuningSweep.

(** ** Speeds are numbers *)

Section SpeedsAreNumbers.
Import Py Sys.

Lemma shr_fexp_nonneg m e l :
  0 <= m -> 0 <= shr_m (fst (shr_fexp prec emax m e l)).
Proof.
  intros Hm. unfold shr_fexp, shr.
  assert (Hr : shr_m (shr_record_of_loc m l) = m) by (destruct l as [|[]]; reflexivity).
  destruct (fexp prec emax (Zdigits2 m + e) - e) as [|p|p]; simpl; try lia.
  rewrite shr_m_iter by lia. apply Z.shiftr_nonneg. lia.
Qed.

Lemma binary_round_aux_not_nan sx m e l :
  0 <= m -> binary_round_aux prec emax sx m e l <> S754_nan.
Proof.
  intros Hm. unfold binary_round_aux.
  pose proof (shr_fexp_nonneg m e l Hm) as H1.
  destruct (shr_fexp prec emax m e l) as [mrs1 e1]. simpl in H1.
  pose proof (round_nearest_even_bounds (shr_m mrs1) (loc_of_shr_record mrs1)) as Hb.
  pose proof (shr_fexp_nonneg
                (round_nearest_even (shr_m mrs1) (loc_of_shr_record mrs1))
                e1 loc_Exact ltac:(lia)) as H2.
  destruct (shr_fexp prec emax _ e1 loc_Exact) as [mrs2 e2]. simpl in H2.
  destruct (shr_m mrs2); [discriminate| |lia].
  destruct (e2 <=? emax - prec); discriminate.
Qed.

Lemma SF64div_not_nan x y :
  x <> S754_nan -> y <> S754_nan ->
  (forall s, y <> S754_zero s) ->
  (forall s, x <> S754_infinity s) \/ (forall s, y <> S754_infinity s) ->
  SF64div x y <> S754_nan.
Proof.
  intros Hx Hy Hz Hinf. unfold SF64div, SFdiv.
  destruct x as [sx|sx| |sx mx ex], y as [sy|sy| |sy my ey];
    try congruence; try discriminate.
  - exfalso. destruct Hinf as [Hi|Hi]; [apply (Hi sx)|apply (Hi sy)]; reflexivity.
  - unfold SFdiv_core_binary.
    set (m' := match _ - _ - _ with Z0 => _ | Zpos _ => _ | Zneg _ => _ end).
    assert (Hm' : 0 <= m').
    { subst m'. destruct (_ - _ - _); try lia. apply Z.shiftl_nonneg. lia. }
    pose proof (Z_div_mod m' (Zpos my) ltac:(lia)) as Hdiv.
    destruct (Z.div_eucl m' (Zpos my)) as [q r].
    apply binary_round_aux_not_nan. nia.
Qed.

Lemma not_zero_spec y : (y =? 0)%float = false -> forall s, Prim2SF y <> S754_zero s.
Proof.
  rewrite FloatAxioms.eqb_spec. intros He s Hs. rewrite Hs in He. discriminate.
Qed.

Lemma not_infinity_spec x :
  is_infinity x = false -> forall s, Prim2SF x <> S754_infinity s.
Proof.
  unfold is_infinity. rewrite FloatAxioms.eqb_spec, abs_spec.
  intros He s Hs. rewrite Hs in He. discriminate.
Qed.

Lemma float_div_not_nan x y :
  is_nan x = false -> is_nan y = false -> (y =? 0)%float = false ->
  is_infinity x = false \/ is_infinity y = false ->
  is_nan (x / y)%float = false.
Proof.
  rewrite !not_nan_spec, div_spec. intros Hx Hy Hz Hinf.
  apply SF64div_not_nan; auto using not_zero_spec.
  destruct Hinf; [left|right]; auto using not_infinity_spec.
Qed.

(** The speed computed from a file size and a duration that is a number is
    a number. *)
Lemma calculate_speed_not_nan time_taken file_size v :
  0 <= file_size < 2 ^ 63 -> is_nan time_taken = false ->
  Tune.calculate_speed time_taken file_size = Ok v -> is_nan v = false.
Proof.
  intros Hs Ht. unfold Tune.calculate_speed, int_truediv_float, float_truediv.
  assert (Hn : 0 <= file_size * 8 < 2 ^ 1023).
  { split; [lia|]. apply Z.lt_trans with (2 ^ 66); [|reflexivity].
    change (2 ^ 66) with (2 ^ 63 * 8). lia. }
  rewrite (int_to_float_Ok _ Hn). simpl.
  destruct (of_Z_finite _ Hn) as [Hfin Hnan].
  destruct (time_taken =? 0)%float eqn:Ez; [discriminate|]. simpl.
  intros Hv. inversion Hv; subst; clear Hv.
  apply float_div_not_nan; auto.
  apply float_div_not_nan; auto.
Qed.

Lemma binary_normalize_not_nan m e : binary_normalize prec emax m e false <> S754_nan.
Proof.
  unfold binary_normalize, binary_round. destruct m as [|p|p]; [discriminate| |];
    destruct (shl_align _ _ _) as [mz ez]; apply binary_round_aux_not_nan; lia.
Qed.

Lemma finite_spec x :
  is_finite x = true ->
  Prim2SF x <> S754_nan /\ forall s, Prim2SF x <> S754_infinity s.
Proof.
  unfold is_finite. intros Hf. apply negb_true_iff, orb_false_iff in Hf as [Hn Hi].
  split; [apply not_nan_spec, Hn|apply not_infinity_spec, Hi].
Qed.

Lemma float_sub_not_nan x y :
  is_finite x = true -> is_finite y = true -> is_nan (x - y)%float = false.
Proof.
  intros Hx Hy. apply finite_spec in Hx as [Hxn Hxi], Hy as [Hyn Hyi].
  rewrite not_nan_spec, sub_spec. unfold SF64sub, SFsub.
  destruct (Prim2SF x) as [sx|sx| |sx mx ex], (Prim2SF y) as [sy|sy| |sy my ey];
    try congruence; try discriminate;
    try (exfalso; apply (Hxi sx); reflexivity);
    try (exfalso; apply (Hyi sy); reflexivity).
  - destruct sx, sy; discriminate.
  - apply binary_normalize_not_nan.
Qed.

(** In a sweep that completes, with a client that keeps the clock finite
    and stores files of a representable size, no recorded speed is NaN. *)
Lemma tune_sweep_speeds_not_nan s3 bucket_name object_key download_path combos :
  well_behaved s3 ->
  forall acc w results w1,
  is_finite (now w) = true ->
  (forall x, x ∈ acc -> is_nan (Tune.speed_mbps x) = false) ->
  Tune.sweep s3 bucket_name object_key download_path combos acc w = (Ok results, w1) ->
  forall x, x ∈ results -> is_nan (Tune.speed_mbps x) = false.
Proof.
  intros Hs3. induction combos as [|c rest IH]; intros acc w results w1 Hw Hacc Hs.
  - inversion Hs; subst. exact Hacc.
  - simpl in Hs. apply bind_Ok in Hs as (x & w0 & Hrun & Hs).
    apply tune_run_Ok in Hrun as (_ & _ & Ht & (f & Hf & Hv) & _ & _ & Hnow).
    destruct (Hs3 bucket_name object_key download_path (Tune.config_of c)
                (fs w) (now w) Hw) as [Hclock Hsize].
    apply (IH (acc ++ [x]) w0 results w1); [rewrite Hnow; exact Hclock| |exact Hs].
    intros y Hy. apply elem_of_app in Hy as [Hy|Hy]; [auto|].
    apply list_elem_of_singleton in Hy as ->.
    apply (calculate_speed_not_nan _ _ _ (Hsize _ Hf)) in Hv; [exact Hv|].
    rewrite Ht. apply float_sub_not_nan; assumption.
Qed.

End SpeedsAreNumbers.

Section TuningConfigurations.
Import Py Sys.

(** C3. The combinations of a tuning sweep are the cartesian product of
    the four lists: there are [w*x*y*z] of them, and the tuple of the
    [i]-th threshold, [j]-th concurrency, [k]-th chunk size and [l]-th
    use_threads option stands at position [((i*x + j)*y + k)*z + l], so
    the threshold varies outermost and use_threads innermost. Nothing is
    suppressed: a sweep that completes has made one transfer and recorded
    one row for each position, in that order. *)
Theorem tuning_sweep_cartesian_product
    (multipart_thresholds max_concurrencies multipart_chunksizes : list Z)
    (use_threads_options : list string) :
  let parameter_combinations :=
    product multipart_thresholds max_concurrencies multipart_chunksizes
      use_threads_options in
  length parameter_combinations
    = (length multipart_thresholds * length max_concurrencies
       * length multipart_chunksizes * length use_threads_options)%nat /\
  (forall i j k l t c s u,
      multipart_thresholds !! i = Some t ->
      max_concurrencies !! j = Some c ->
      multipart_chunksizes !! k = Some s ->
      use_threads_options !! l = Some u ->
      parameter_combinations
        !! (((i * length max_concurrencies + j) * length multipart_chunksizes + k)
            * length use_threads_options + l)%nat
        = Some (t, c, s, u)) /\
  (forall s3 bucket_name object_key download_path w results w1,
      Tune.sweep s3 bucket_name object_key download_path parameter_combinations [] w
        = (Ok results, w1) ->
      List.map Tune.combination results = parameter_combinations /\
      transfers w1 = transfers w ++
        List.map (fun c => Boto.download_file bucket_name object_key download_path
                             (Tune.config_of c)) parameter_combinations).
Proof.
  intros combos. split; [apply product_length|].
  split; [intros; apply product_lookup; assumption|].
  intros s3 bucket_name object_key download_path w results w1 Hs.
  apply tune_sweep_Ok in Hs as (rows & -> & Hrows & Ht & _).
  simpl. auto.
Qed.

(** Two equal thresholds give two equal tuples, both kept. *)
Lemma tuning_sweep_cartesian_product_witness :
  let combos := product [8; 8] [10] [16] ["True"; "no"]%string in
  length combos = 4%nat /\
  combos !! 3%nat = Some (8, 10, 16, "no"%string) /\
  combos !! 1%nat = Some (8, 10, 16, "no"%string) /\
  exists results w1,
    Tune.sweep (Samples.steady 1000) None "k" "p" combos [] Samples.start
      = (Ok results, w1) /\
    List.map Tune.combination results = combos /\
    length (transfers w1) = 4%nat.
Proof.
  intros combos.
  destruct (tuning_sweep_cartesian_product [8; 8] [10] [16] ["True"; "no"]%string)
    as (Hlen & Hpos & Hrun).
  split; [exact Hlen|].
  split; [exact (Hpos 1%nat 0%nat 0%nat 1%nat 8 10 16 "no"%string eq_refl eq_refl eq_refl eq_refl)|].
  split; [exact (Hpos 0%nat 0%nat 0%nat 1%nat 8 10 16 "no"%string eq_refl eq_refl eq_refl eq_refl)|].
  destruct (Tune.sweep (Samples.steady 1000) None "k" "p" combos [] Samples.start)
    as [[results|e] w1] eqn:Es; [|vm_compute in Es; discriminate].
  exists results, w1. split; [reflexivity|].
  destruct (Hrun _ _ _ _ _ _ _ Es) as [Hrows Ht].
  split; [exact Hrows|]. rewrite Ht. reflexivity.
Defined.

End TuningConfigurations.

(** ** The use_threads option *)

Section UseThreads.
Import Py Sys.

Lemma str_in_elem_of s l : str_in s l = true <-> s ∈ l.
Proof.
  unfold str_in. rewrite existsb_exists. split.
  - intros (x & Hx & He). apply String.eqb_eq in He as ->.
    apply list_elem_of_In, Hx.
  - intros Hs. exists s. split; [apply list_elem_of_In, Hs|apply String.eqb_refl].
Qed.

(** C9. The use_threads text parses to true exactly when its lower-case
    form is one of 'true', '1', 't', 'y', 'yes', in the tuning script and,
    through the USE_THREADS variable, in the two size sweeps. The parse is
    a total function to a boolean: any other text, such as 'on',
    'enabled' or the empty text, gives false and nothing is raised. *)
Theorem use_threads_parse (s : string) (env : gmap string string) :
  (Tune.use_threads_bool s = true
     <-> lower s ∈ ["true"; "1"; "t"; "y"; "yes"]%string) /\
  (Tune.use_threads_bool s = false
     <-> lower s ∉ ["true"; "1"; "t"; "y"; "yes"]%string) /\
  SizeSweep.use_threads_env (<["USE_THREADS"%string := s]> env)
    = Tune.use_threads_bool s /\
  Tune.use_threads_bool "on" = false /\
  Tune.use_threads_bool "enabled" = false /\
  Tune.use_threads_bool "" = false /\
  Tune.use_threads_bool " true" = false /\
  Tune.use_threads_bool "YES" = true.
Proof.
  assert (Ht := str_in_elem_of (lower s) ["true"; "1"; "t"; "y"; "yes"]%string).
  unfold Tune.use_threads_bool, SizeSweep.use_threads_env, getenv.
  rewrite lookup_insert_eq. simpl default.
  repeat split; try reflexivity; try tauto.
  - intros Hf Hin. apply Ht in Hin. congruence.
  - intros Hn. destruct (str_in _ _) eqn:E; [|reflexivity].
    exfalso. apply Hn, Ht. reflexivity.
Qed.

Lemma marker_size_True raw : Tune.marker_size raw = 100 <-> raw = "True"%string.
Proof.
  unfold Tune.marker_size. destruct (String.eqb_spec raw "True") as [->|Hne].
  - tauto.
  - split; [discriminate|contradiction].
Qed.

(** C10. In a tuning sweep that completes, the row recorded for a
    combination keeps the use_threads text of the parameter list as it
    was given: that text is the fourth entry written to the table and the
    'Use Threads' entry of the best-configuration document, while the
    transfer of that run received the parsed boolean. The chart gives a
    point the large marker only when the recorded text is exactly 'True',
    so 'true' and 'yes', which parse to true, get the small marker. *)
Theorem use_threads_recorded_as_given s3 bucket_name object_key download_path
    (parameter_combinations : list (Z * Z * Z * string)) w results w1 :
  Tune.sweep s3 bucket_name object_key download_path parameter_combinations [] w
    = (Ok results, w1) ->
  (forall n x, results !! n = Some x ->
     exists t c s raw,
       parameter_combinations !! n = Some (t, c, s, raw) /\
       Tune.use_threads x = raw /\
       Tune.values x !! 3%nat = Some (Str raw) /\
       transfers w1 !! (length (transfers w) + n)%nat
         = Some (Boto.download_file bucket_name object_key download_path
                   {| Boto.multipart_threshold := t; Boto.max_concurrency := c;
                      Boto.multipart_chunksize := s;
                      Boto.use_threads := Tune.use_threads_bool raw |})) /\
  (forall document, Tune.find_fastest_parameters results = Ok document ->
     exists best, best ∈ results /\
       document !! 3%nat = Some ("Use Threads"%string, Str (Tune.use_threads best))) /\
  (forall output_file w2,
     figures (snd (Tune.plot_results results output_file w2))
       = figures w2 ++
         [(output_file,
           Scatter (List.map Tune.multipart_threshold results)
             (List.map Tune.speed_mbps results)
             (List.map Tune.max_concurrency results)
             (List.map (fun x => if String.eqb (Tune.use_threads x) "True"
                                 then 100 else 50) results))]) /\
  (forall raw, Tune.marker_size raw = 100 <-> raw = "True"%string) /\
  (Tune.use_threads_bool "true" = true /\ Tune.marker_size "true" = 50) /\
  (Tune.use_threads_bool "yes" = true /\ Tune.marker_size "yes" = 50).
Proof.
  intros Hs. apply tune_sweep_Ok in Hs as (rows & -> & Hrows & Ht & _).
  simpl. split; [|split; [|split; [|split; [|split]]]].
  - intros n x Hx.
    assert (Hc : parameter_combinations !! n = Some (Tune.combination x)).
    { rewrite <- Hrows. apply map_lookup, Hx. }
    destruct x as [t c s raw tt v]. exists t, c, s, raw.
    split; [exact Hc|]. split; [reflexivity|]. split; [reflexivity|].
    rewrite Ht, lookup_app_r by lia.
    replace (length (transfers w) + n - length (transfers w))%nat with n by lia.
    rewrite (map_lookup _ _ _ _ Hc). reflexivity.
  - intros document Hd. unfold Tune.find_fastest_parameters in Hd.
    destruct rows as [|x0 rest]; [discriminate|]. simpl in Hd.
    inversion Hd; subst; clear Hd.
    destruct (max_loop_spec Tune.speed_mbps rest [x0] x0 0%nat) as (i & Hi & _).
    + reflexivity.
    + intros x Hx. apply list_elem_of_singleton in Hx as ->. apply ltb_irrefl.
    + intros j x Hj. lia.
    + exists (max_loop Tune.speed_mbps x0 rest). split; [|reflexivity].
      apply list_elem_of_lookup. exists i. exact Hi.
  - intros output_file w2. simpl. rewrite List.map_map. reflexivity.
  - apply marker_size_True.
  - split; reflexivity.
  - split; reflexivity.
Qed.

Lemma use_threads_recorded_as_given_witness :
  exists results w1,
    Tune.sweep (Samples.steady 1000) None "k" "p" [(8, 10, 16, "yes"%string)] []
      Samples.start = (Ok results, w1) /\
    List.map Tune.use_threads results = ["yes"%string] /\
    List.map Tune.marker_size (List.map Tune.use_threads results) = [50] /\
    transfers w1 = [Boto.download_file None "k" "p"
                      {| Boto.multipart_threshold := 8; Boto.max_concurrency := 10;
                         Boto.multipart_chunksize := 16; Boto.use_threads := true |}].
Proof.
  destruct (Tune.sweep (Samples.steady 1000) None "k" "p" [(8, 10, 16, "yes"%string)] []
              Samples.start) as [[results|e] w1] eqn:Es; [|vm_compute in Es; discriminate].
  exists results, w1. split; [reflexivity|].
  pose proof (use_threads_recorded_as_given _ _ _ _ _ _ _ _ Es) as (Hrow & _).
  vm_compute in Es. inversion Es; subst; clear Es.
  destruct (Hrow 0%nat _ eq_refl) as (t & c & s & raw & Hc & Hraw & _ & Ht).
  inversion Hc; subst; clear Hc.
  split; [reflexivity|]. split; [reflexivity|]. reflexivity.
Defined.

End UseThreads.

(** ** Persistence *)

Section Persistence.
Import Py Sys.
Context `{FloatRepr}.

Lemma write_file_twice path content w :
  write_file path content (snd (write_file path content w))
    = write_file path content w.
Proof.
  unfold write_file. simpl. rewrite insert_insert_eq. reflexivity.
Qed.

Lemma write_file_content path content w :
  fs (snd (write_file path content w)) !! path = Some content.
Proof. unfold write_file. simpl. apply lookup_insert_eq. Qed.

(** C8. Each persist operation overwrites its file: after a call the file
    holds the rendering of the given results and nothing of what it held
    before, so a second call with the same results returns the same
    outcome and leaves the world as the first call left it. This holds for
    the tables of the three scripts and for the best-configuration
    document. *)
Theorem persist_idempotent (tuning : list Tune.row) (sizes : list SizeSweep.row)
    (fastest_params : list (string * value)) (filename : string) (w : world) :
  (Tune.save_results_to_csv tuning filename
     (snd (Tune.save_results_to_csv tuning filename w))
     = Tune.save_results_to_csv tuning filename w /\
   fs (snd (Tune.save_results_to_csv tuning filename w)) !! filename
     = Some (Text (Csv.writerow Tune.header
                     +:+ Csv.writerows (List.map Tune.values tuning)))) /\
  (Download.save_results_to_csv sizes filename
     (snd (Download.save_results_to_csv sizes filename w))
     = Download.save_results_to_csv sizes filename w /\
   fs (snd (Download.save_results_to_csv sizes filename w)) !! filename
     = Some (Text (Csv.writerow Download.header
                     +:+ Csv.writerows (List.map SizeSweep.values sizes)))) /\
  (Upload.save_results_to_csv sizes filename
     (snd (Upload.save_results_to_csv sizes filename w))
     = Upload.save_results_to_csv sizes filename w /\
   fs (snd (Upload.save_results_to_csv sizes filename w)) !! filename
     = Some (Text (Csv.writerow Upload.header
                     +:+ Csv.writerows (List.map SizeSweep.values sizes)))) /\
  (Tune.save_fastest_to_json fastest_params filename
     (snd (Tune.save_fastest_to_json fastest_params filename w))
     = Tune.save_fastest_to_json fastest_params filename w /\
   fs (snd (Tune.save_fastest_to_json fastest_params filename w)) !! filename
     = Some (Text (Json.dump fastest_params))).
Proof.
  unfold Tune.save_results_to_csv, Download.save_results_to_csv,
    Upload.save_results_to_csv, Tune.save_fastest_to_json.
  repeat split; first [apply write_file_twice | apply write_file_content].
Qed.

End Persistence.

(** ** Empty configuration lists *)

Section EmptyLists.
Import Py Sys.
Context `{FloatRepr}.

Lemma int_list_empty_text : Tune.int_list (Some ""%string)
  = Raise (ValueError (InvalidIntLiteral "")).
Proof. reflexivity. Qed.

Lemma int_configuration_error s e : int s = Raise e -> Spec.ConfigurationError e.
Proof.
  unfold int. destruct (match strip s with
                        | String "+" r => digits 0 false r
                        | String "-" r => Z.opp <$> digits 0 false r
                        | _ => digits 0 false (strip s)
                        end); [discriminate|].
  intros He. inversion He. right. eauto.
Qed.

Lemma list_map_int_configuration_error l e :
  list_map int l = Raise e -> Spec.ConfigurationError e.
Proof.
  induction l as [|s l IH]; simpl; [discriminate|].
  unfold mbind, result_bind.
  destruct (int s) eqn:Es; [|intros He; inversion He; subst; eapply int_configuration_error, Es].
  destruct (list_map int l); [discriminate|].
  intros He. inversion He; subst. apply IH. reflexivity.
Qed.

Lemma int_list_configuration_error v e :
  Tune.int_list v = Raise e -> Spec.ConfigurationError e.
Proof.
  destruct v as [s|]; simpl.
  - apply list_map_int_configuration_error.
  - intros He. inversion He. left. reflexivity.
Qed.

(** C5, as the scripts have it. When the text of one of the three numeric
    tuning lists is empty, or one of the four tuning variables is not set,
    [main] of the tuning script fails while it reads its settings, with
    the [ValueError] of [int] or the [AttributeError] of [None.split], and
    the world is as before: no transfer was attempted and nothing was
    written. When the text of FILE_SIZES is empty the two size sweeps
    fail in the same way with [ValueError]. The use_threads text is not
    converted: when empty it is the list of one option, the empty text,
    which parses to false. *)
Theorem empty_numeric_list_fails_before_transfer (env : gmap string string)
    (s3 : client) (timestamp : string) (w : world) :
  ((getenv env "TUNE_MULTIPART_THRESHOLD" = Some ""%string \/
    getenv env "TUNE_MAX_CONCURRENCY" = Some ""%string \/
    getenv env "TUNE_MULTIPART_CHUNKSIZE" = Some ""%string \/
    getenv env "TUNE_MULTIPART_THRESHOLD" = None \/
    getenv env "TUNE_MAX_CONCURRENCY" = None \/
    getenv env "TUNE_MULTIPART_CHUNKSIZE" = None \/
    getenv env "TUNE_USE_THREADS" = None) ->
   exists e, Spec.ConfigurationError e /\ Tune.main env s3 timestamp w = (Raise e, w)) /\
  (getenv env "FILE_SIZES" = Some ""%string ->
   Download.main env s3 timestamp w = (Raise (ValueError (InvalidIntLiteral "")), w) /\
   Upload.main env s3 timestamp w = (Raise (ValueError (InvalidIntLiteral "")), w)) /\
  (Tune.str_list (Some ""%string) = Ok [""%string] /\
   Tune.use_threads_bool "" = false).
Proof.
  split; [|split; [|split; reflexivity]].
  - intros Hempty. unfold Tune.main, lift, mbind, M_bind.
    destruct (match getenv env "TUNE_FILE_SIZE" with
              | Some s => int s | None => Ok 1024 end) as [size|e] eqn:E0.
    2:{ exists e. split; [|reflexivity].
        destruct (getenv env "TUNE_FILE_SIZE"); [|discriminate].
        eapply int_configuration_error, E0. }
    destruct (Tune.int_list (getenv env "TUNE_MULTIPART_THRESHOLD")) as [a|e] eqn:E1.
    2:{ exists e. split; [eapply int_list_configuration_error, E1|reflexivity]. }
    destruct (Tune.int_list (getenv env "TUNE_MAX_CONCURRENCY")) as [b|e] eqn:E2.
    2:{ exists e. split; [eapply int_list_configuration_error, E2|reflexivity]. }
    destruct (Tune.int_list (getenv env "TUNE_MULTIPART_CHUNKSIZE")) as [c|e] eqn:E3.
    2:{ exists e. split; [eapply int_list_configuration_error, E3|reflexivity]. }
    destruct (Tune.str_list (getenv env "TUNE_USE_THREADS")) as [d|e] eqn:E4.
    2:{ exists e. split; [|reflexivity].
        destruct (getenv env "TUNE_USE_THREADS"); [discriminate|].
        inversion E4. left. reflexivity. }
    exfalso.
    destruct Hempty as [Hv|[Hv|[Hv|[Hv|[Hv|[Hv|Hv]]]]]];
      rewrite Hv in *; discriminate.
  - intros Hv. unfold Download.main, Upload.main, lift, mbind, M_bind,
      SizeSweep.settings. rewrite Hv. split; reflexivity.
Qed.

End EmptyLists.

Lemma empty_numeric_list_fails_before_transfer_witness :
  let env : gmap string string :=
    <["TUNE_MULTIPART_THRESHOLD"%string := "8388608"%string]>
      (<["TUNE_MAX_CONCURRENCY"%string := ""%string]> ∅) in
  Sys.getenv env "TUNE_MAX_CONCURRENCY" = Some ""%string /\
  exists e, @Tune.main Samples.repr2 env (Samples.steady 1000) "t" Samples.start
              = (Py.Raise e, Samples.start).
Proof.
  intros env. split; [reflexivity|].
  destruct (@empty_numeric_list_fails_before_transfer Samples.repr2 env
              (Samples.steady 1000) "t"%string Samples.start) as [Htune _].
  destruct Htune as (e & _ & He); [right; left; reflexivity|].
  exists e. exact He.
Defined.

(** An empty use_threads text is one option, the empty text: the sweep
    runs, with use_threads off. *)
Lemma empty_use_threads_list_is_swept :
  let env : gmap string string :=
    <["TUNE_MULTIPART_THRESHOLD"%string := "8388608"%string]>
      (<["TUNE_MAX_CONCURRENCY"%string := "10"%string]>
         (<["TUNE_MULTIPART_CHUNKSIZE"%string := "8388608"%string]>
            (<["TUNE_USE_THREADS"%string := ""%string]> ∅))) in
  let outcome :=
    @Tune.main Samples.repr2 env (Samples.steady 1048576) "t" Samples.start in
  Sys.getenv env "TUNE_USE_THREADS" = Some ""%string /\
  ~ (exists e w1, outcome = (Py.Raise e, w1) /\ Sys.transfers w1 = []) /\
  fst outcome = Py.Ok tt /\
  Sys.transfers (snd outcome)
    = [Boto.download_file None "example_1024mb.txt" "downloaded_1024mb.txt"
         {| Boto.multipart_threshold := 8388608; Boto.max_concurrency := 10;
            Boto.multipart_chunksize := 8388608; Boto.use_threads := false |}].
Proof.
  intros env outcome. split; [reflexivity|].
  assert (Hfst : fst outcome = Py.Ok tt) by (vm_compute; reflexivity).
  split; [|split; [exact Hfst|vm_compute; reflexivity]].
  intros (e & w1 & He & _). rewrite He in Hfst. discriminate.
Qed.

(** ** The size that enters the upload speed *)

Section UploadSize.
Import Py Sys.




End UploadSize.

(** ** The two-size scenario *)

Section Scenario.
Import Py.

(** C7, as the scripts compute it. Sizes of 104857600 and 524288000 bytes
    transferred in 2.0 s and 5.0 s give throughputs that print, to two
    decimals, as 419.43 and 838.86 Mbps, and of two results with these
    throughputs the selector returns the second, the 500 MB one. *)
Theorem two_size_scenario :
  exists v1 v2,
    Download.calculate_speed 2 104857600 = Ok v1 /\
    Download.calculate_speed 5 524288000 = Ok v2 /\
    format_2f v1 = "419.43"%string /\
    format_2f v2 = "838.86"%string /\
    Tune.find_fastest_parameters
      [Samples.tuning_row 8388608 "True" 2 v1; Samples.tuning_row 8388608 "True" 5 v2]
      = Ok [("Multipart Threshold (bytes)"%string, Int 8388608);
            ("Max Concurrency"%string, Int 10);
            ("Multipart Chunksize (bytes)"%string, Int 8388608);
            ("Use Threads"%string, Str "True");
            ("Time Taken (s)"%string, Float 5);
            ("Download Speed (Mbps)"%string, Float v2)].
Proof.
  eexists. eexists.
  split; [vm_compute; reflexivity|]. split; [vm_compute; reflexivity|].
  split; [vm_compute; reflexivity|]. split; vm_compute; reflexivity.
Qed.

(** The second throughput does not print as 839.86. *)
Lemma two_size_scenario_not_839_86 :
  ~ (exists v1 v2,
       Download.calculate_speed 2 104857600 = Ok v1 /\
       Download.calculate_speed 5 524288000 = Ok v2 /\
       format_2f v1 = "419.43"%string /\
       format_2f v2 = "839.86"%string).
Proof.
  intros (v1 & v2 & _ & H2 & _ & Hf).
  vm_compute in H2. inversion H2; subst; clear H2.
  vm_compute in Hf. discriminate.
Qed.

End Scenario.

(** * Further properties of the scripts *)

(** ** Outcomes of one run *)

Section RunOutcomes.
Import Py Sys.


Lemma tune_run_outcome s3 bucket_name object_key download_path c w :
  let req := Boto.download_file bucket_name object_key download_path (Tune.config_of c) in
  let e := s3 req (fs w) (now w) in
  Tune.run s3 bucket_name object_key download_path c w =
    match raised e with
    | Some x => (Raise x, Cases.after_call w req e)
    | None =>
        match files_after e !! download_path with
        | None => (Raise (FileNotFoundError download_path), Cases.after_call w req e)
        | Some f =>
            match Tune.calculate_speed (clock_after e - now w)%float (file_size f) with
            | Raise x => (Raise x, Cases.after_call w req e)
            | Ok v =>
                (Ok {| Tune.multipart_threshold := c.1.1.1; Tune.max_concurrency := c.1.1.2;
                       Tune.multipart_chunksize := c.1.2; Tune.use_threads := c.2;
                       Tune.time_taken := (clock_after e - now w)%float;
                       Tune.speed_mbps := v |},
                 {| fs := delete download_path (files_after e); now := clock_after e;
                    transfers := transfers w ++ [req]; figures := figures w |})
            end
        end
    end.
Proof.
  destruct c as [[[th mc] cs] ut].
  unfold Tune.run, Tune.download_file, call, time, getsize, lift, remove, Cases.after_call.
  unfold mbind, M_bind, mret, M_ret. simpl.
  destruct (raised _) eqn:Er; [reflexivity|]. simpl.
  destruct (files_after _ !! download_path) as [f|] eqn:Ef; [|reflexivity].
  destruct (Tune.calculate_speed _ _) as [v|] eqn:Ev; [|reflexivity].
  simpl. rewrite Ef. reflexivity.
Qed.

End RunOutcomes.

(** ** The tuning script as a whole *)

Section TuningMain.
Import Py Sys.





Lemma list_map_length {A B} (f : A -> result B) l l' :
  list_map f l = Ok l' -> length l' = length l.
Proof.
  revert l'. induction l as [|x l IH]; intros l'; simpl.
  - intros Hl. inversion Hl. reflexivity.
  - unfold mbind, result_bind. destruct (f x); [|discriminate].
    destruct (list_map f l); [|discriminate].
    intros Hl. inversion Hl. simpl. rewrite (IH _ eq_refl). reflexivity.
Qed.

Lemma split_length s : length (split "," s) = S (Cases.commas s).
Proof.
  induction s as [|c r IH]; simpl; [reflexivity|].
  destruct (Ascii.eqb c ","); simpl; [rewrite IH; reflexivity|].
  destruct (split "," r); simpl in *; [discriminate|exact IH].
Qed.

Lemma int_list_length v l :
  Tune.int_list v = Ok l ->
  exists s, v = Some s /\ length l = S (Cases.commas s).
Proof.
  destruct v as [s|]; simpl; [|discriminate].
  intros Hl. exists s. split; [reflexivity|].
  rewrite (list_map_length _ _ _ Hl). apply split_length.
Qed.

Lemma str_list_length v l :
  Tune.str_list v = Ok l ->
  exists s, v = Some s /\ length l = S (Cases.commas s).
Proof.
  destruct v as [s|]; simpl; [|discriminate].
  intros Hl. inversion Hl. exists s. split; [reflexivity|apply split_length].
Qed.

(** [main] is its settings, then its sweep, then the three outputs. *)
Lemma tune_main_outcome `{FloatRepr} env s3 timestamp w :
  Tune.main env s3 timestamp w =
    match Cases.tune_settings env with
    | Raise e => (Raise e, w)
    | Ok (tune_file_size, a, b, c, d) =>
        match Tune.sweep s3 (getenv env "S3_BUCKET_NAME")
                ("example_" +:+ pretty tune_file_size +:+ "mb.txt")
                ("downloaded_" +:+ pretty tune_file_size +:+ "mb.txt")
                (product a b c d) [] w with
        | (Raise e, w0) => (Raise e, w0)
        | (Ok results, w0) =>
            let table := Text (Csv.writerow Tune.header
                                 +:+ Csv.writerows (List.map Tune.values results)) in
            let figure :=
              Scatter (List.map Tune.multipart_threshold results)
                (List.map Tune.speed_mbps results)
                (List.map Tune.max_concurrency results)
                (List.map Tune.marker_size (List.map Tune.use_threads results)) in
            let csv_file_name := ("tuning_results_" +:+ timestamp +:+ ".csv")%string in
            let plot_file_name := ("tuning_plot_" +:+ timestamp +:+ ".png")%string in
            let json_file_name :=
              ("fastest_configuration_" +:+ timestamp +:+ ".json")%string in
            match Tune.find_fastest_parameters results with
            | Raise e =>
                (Raise e, {| fs := <[csv_file_name := table]> (fs w0); now := now w0;
                             transfers := transfers w0;
                             figures := figures w0 ++ [(plot_file_name, figure)] |})
            | Ok best_params =>
                (Ok tt,
                 {| fs := <[json_file_name := Text (Json.dump best_params)]>
                            (<[csv_file_name := table]> (fs w0));
                    now := now w0; transfers := transfers w0;
                    figures := figures w0 ++ [(plot_file_name, figure)] |})
            end
        end
    end.
Proof.
  unfold Tune.main, Cases.tune_settings, lift.
  unfold mbind at 1 2 3 4 5, M_bind, result_bind.
  destruct (match getenv env "TUNE_FILE_SIZE" with
            | Some s => int s | None => Ok 1024 end) as [size|e]; [|reflexivity].
  destruct (Tune.int_list (getenv env "TUNE_MULTIPART_THRESHOLD")) as [a|e]; [|reflexivity].
  destruct (Tune.int_list (getenv env "TUNE_MAX_CONCURRENCY")) as [b|e]; [|reflexivity].
  destruct (Tune.int_list (getenv env "TUNE_MULTIPART_CHUNKSIZE")) as [c|e]; [|reflexivity].
  destruct (Tune.str_list (getenv env "TUNE_USE_THREADS")) as [d|e]; [|reflexivity].
  simpl. unfold mbind, M_bind.
  destruct (Tune.sweep _ _ _ _ _ _ _) as [[results|e] w0]; [|reflexivity].
  unfold Tune.save_results_to_csv, Tune.plot_results, Tune.save_fastest_to_json,
    write_file, savefig. simpl.
  destruct (Tune.find_fastest_parameters results); reflexivity.
Qed.


Lemma tune_settings_Ok env size a b c d :
  Cases.tune_settings env = Ok (size, a, b, c, d) ->
  exists ta tb tc td,
    getenv env "TUNE_MULTIPART_THRESHOLD" = Some ta /\
    getenv env "TUNE_MAX_CONCURRENCY" = Some tb /\
    getenv env "TUNE_MULTIPART_CHUNKSIZE" = Some tc /\
    getenv env "TUNE_USE_THREADS" = Some td /\
    length a = S (Cases.commas ta) /\ length b = S (Cases.commas tb) /\
    length c = S (Cases.commas tc) /\ length d = S (Cases.commas td).
Proof.
  unfold Cases.tune_settings, mbind, result_bind.
  destruct (match getenv env "TUNE_FILE_SIZE" with
            | Some s => int s | None => Ok 1024 end) as [size0|]; [|discriminate].
  destruct (Tune.int_list (getenv env "TUNE_MULTIPART_THRESHOLD")) as [a0|] eqn:E1;
    [|discriminate].
  destruct (Tune.int_list (getenv env "TUNE_MAX_CONCURRENCY")) as [b0|] eqn:E2;
    [|discriminate].
  destruct (Tune.int_list (getenv env "TUNE_MULTIPART_CHUNKSIZE")) as [c0|] eqn:E3;
    [|discriminate].
  destruct (Tune.str_list (getenv env "TUNE_USE_THREADS")) as [d0|] eqn:E4;
    [|discriminate].
  intros Hs. inversion Hs; subst; clear Hs.
  apply int_list_length in E1 as (ta & -> & Ha), E2 as (tb & -> & Hb),
    E3 as (tc & -> & Hc).
  apply str_list_length in E4 as (td & -> & Hd).
  exists ta, tb, tc, td. auto 10.
Qed.






(** X4. A run of the tuning script that succeeds has made as many
    transfers as the product of the numbers of comma-separated entries of
    its four list variables. *)
Theorem tune_main_transfer_count `{FloatRepr} env s3 timestamp w w1 :
  Tune.main env s3 timestamp w = (Ok tt, w1) ->
  exists ta tb tc td,
    getenv env "TUNE_MULTIPART_THRESHOLD" = Some ta /\
    getenv env "TUNE_MAX_CONCURRENCY" = Some tb /\
    getenv env "TUNE_MULTIPART_CHUNKSIZE" = Some tc /\
    getenv env "TUNE_USE_THREADS" = Some td /\
    length (transfers w1)
      = (length (transfers w)
         + S (Cases.commas ta) * S (Cases.commas tb)
           * S (Cases.commas tc) * S (Cases.commas td))%nat.
Proof.
  rewrite tune_main_outcome.
  destruct (Cases.tune_settings env) as [[[[[size a] b] c] d]|e0] eqn:Eset; [|discriminate].
  destruct (Tune.sweep _ _ _ _ _ _ _) as [[results|e0] w0] eqn:Es; [|discriminate].
  destruct (Tune.find_fastest_parameters results); [|discriminate].
  intros Hm. inversion Hm; subst; clear Hm. simpl.
  apply tune_settings_Ok in Eset
    as (ta & tb & tc & td & Ea & Eb & Ec & Ed & Ha & Hb & Hc & Hd).
  exists ta, tb, tc, td. repeat (split; [assumption|]).
  apply tune_sweep_Ok in Es as (rows & _ & _ & Ht & _).
  rewrite Ht, length_app, length_map, product_length, Ha, Hb, Hc, Hd. reflexivity.
Qed.

Lemma tune_main_transfer_count_witness :
  let env : gmap string string :=
    <["TUNE_MULTIPART_THRESHOLD"%string := "8,16,32"%string]>
      (<["TUNE_MAX_CONCURRENCY"%string := "5,10"%string]>
         (<["TUNE_MULTIPART_CHUNKSIZE"%string := "8"%string]>
            (<["TUNE_USE_THREADS"%string := "True,False"%string]> ∅))) in
  exists w1,
    @Tune.main Samples.repr2 env (Samples.steady 1000000) "t" Samples.start = (Ok tt, w1) /\
    length (transfers w1) = 12%nat.
Proof.
  intros env.
  destruct (@Tune.main Samples.repr2 env (Samples.steady 1000000) "t" Samples.start)
    as [[[]|e] w1] eqn:Em; [|vm_compute in Em; discriminate].
  exists w1. split; [reflexivity|].
  destruct (@tune_main_transfer_count Samples.repr2 _ _ _ _ _ Em)
    as (ta & tb & tc & td & Ea & Eb & Ec & Ed & Hn).
  vm_compute in Ea, Eb, Ec, Ed. inversion Ea; inversion Eb; inversion Ec; inversion Ed.
  subst. exact Hn.
Defined.

End TuningMain.

(** ** The two size sweeps *)

Section SizeSweeps.
Import Py Sys.

Lemma download_run_outcome s3 bucket_name config size w :
  let download_path := ("downloaded_" +:+ pretty size +:+ "mb.txt")%string in
  let req := Boto.download_file bucket_name ("example_" +:+ pretty size +:+ "mb.txt")
               download_path config in
  let e := s3 req (fs w) (now w) in
  Download.run s3 bucket_name config size w =
    match raised e with
    | Some x => (Raise x, Cases.after_call w req e)
    | None =>
        match files_after e !! download_path with
        | None => (Raise (FileNotFoundError download_path), Cases.after_call w req e)
        | Some f =>
            match Download.calculate_speed (clock_after e - now w)%float (file_size f) with
            | Raise x => (Raise x, Cases.after_call w req e)
            | Ok v =>
                (Ok (SizeSweep.mk_row size (clock_after e - now w)%float v config),
                 {| fs := delete download_path (files_after e); now := clock_after e;
                    transfers := transfers w ++ [req]; figures := figures w |})
            end
        end
    end.
Proof.
  unfold Download.run, Download.download_file, call, time, getsize, lift, remove,
    Cases.after_call.
  unfold mbind, M_bind, mret, M_ret. simpl.
  destruct (raised _) eqn:Er; [reflexivity|]. simpl.
  destruct (files_after _ !! _) as [f|] eqn:Ef; [|reflexivity].
  destruct (Download.calculate_speed _ _) as [v|] eqn:Ev; [|reflexivity].
  simpl. rewrite Ef. reflexivity.
Qed.

Lemma upload_run_outcome s3 bucket_name config size w :
  let file_name := ("dummy_" +:+ pretty size +:+ "mb.txt")%string in
  let req := Boto.upload_file file_name bucket_name
               ("example_" +:+ pretty size +:+ "mb.txt") config in
  let created := {| fs := <[file_name := Blob (size * 1024 * 1024)]>
                            (<[file_name := Blob 0]> (fs w));
                    now := now w; transfers := transfers w; figures := figures w |} in
  let e := s3 req (fs created) (now w) in
  Upload.run s3 bucket_name config size w =
    if size * 1024 * 1024 <? 0
    then (Raise (ValueError NegativeArgument),
          {| fs := <[file_name := Blob 0]> (fs w); now := now w;
             transfers := transfers w; figures := figures w |})
    else
      match raised e with
      | Some x => (Raise x, Cases.after_call created req e)
      | None =>
          match files_after e !! file_name with
          | None => (Raise (FileNotFoundError file_name), Cases.after_call created req e)
          | Some f =>
              match Upload.calculate_speed (clock_after e - now w)%float (file_size f) with
              | Raise x => (Raise x, Cases.after_call created req e)
              | Ok v =>
                  (Ok (SizeSweep.mk_row size (clock_after e - now w)%float v config),
                   {| fs := delete file_name (files_after e); now := clock_after e;
                      transfers := transfers w ++ [req]; figures := figures w |})
              end
          end
      end.
Proof.
  unfold Upload.run, Upload.create_dummy_file, Upload.upload_file, call, time, getsize,
    lift, remove, write_file, raise, Cases.after_call.
  unfold mbind, M_bind, mret, M_ret. simpl.
  destruct (size * 1024 * 1024 <? 0) eqn:Eneg; [reflexivity|]. simpl.
  destruct (raised _) eqn:Er; [reflexivity|]. simpl.
  destruct (files_after _ !! _) as [f|] eqn:Ef; [|reflexivity].
  destruct (Upload.calculate_speed _ _) as [v|] eqn:Ev; [|reflexivity].
  simpl. rewrite Ef. reflexivity.
Qed.

Lemma download_run_Ok s3 bucket_name config size w x w1 :
  Download.run s3 bucket_name config size w = (Ok x, w1) ->
  (exists t v, x = SizeSweep.mk_row size t v config) /\
  transfers w1 = transfers w ++
    [Boto.download_file bucket_name ("example_" +:+ pretty size +:+ "mb.txt")
       ("downloaded_" +:+ pretty size +:+ "mb.txt") config] /\
  figures w1 = figures w.
Proof.
  rewrite download_run_outcome. simpl.
  destruct (raised _); [discriminate|].
  destruct (files_after _ !! _); [|discriminate].
  destruct (Download.calculate_speed _ _); [|discriminate].
  intros Hx. inversion Hx; subst; clear Hx. simpl. eauto.
Qed.

Lemma upload_run_Ok s3 bucket_name config size w x w1 :
  Upload.run s3 bucket_name config size w = (Ok x, w1) ->
  0 <= size /\
  (exists t v, x = SizeSweep.mk_row size t v config) /\
  transfers w1 = transfers w ++
    [Boto.upload_file ("dummy_" +:+ pretty size +:+ "mb.txt") bucket_name
       ("example_" +:+ pretty size +:+ "mb.txt") config] /\
  figures w1 = figures w.
Proof.
  rewrite upload_run_outcome. simpl.
  destruct (size * 1024 * 1024 <? 0) eqn:Eneg; [discriminate|].
  apply Z.ltb_ge in Eneg.
  destruct (raised _); [discriminate|].
  destruct (files_after _ !! _); [|discriminate].
  destruct (Upload.calculate_speed _ _); [|discriminate].
  intros Hx. inversion Hx; subst; clear Hx. simpl.
  split; [lia|]. eauto.
Qed.

Lemma download_sweep_Ok s3 bucket_name config file_sizes :
  forall acc w results w1,
  Download.sweep s3 bucket_name config file_sizes acc w = (Ok results, w1) ->
  exists rows,
    results = acc ++ rows /\
    List.map SizeSweep.size rows = file_sizes /\
    (forall x, x ∈ rows ->
       exists t v, x = SizeSweep.mk_row (SizeSweep.size x) t v config) /\
    transfers w1 = transfers w ++
      List.map (fun size =>
                  Boto.download_file bucket_name ("example_" +:+ pretty size +:+ "mb.txt")
                    ("downloaded_" +:+ pretty size +:+ "mb.txt") config) file_sizes /\
    figures w1 = figures w.
Proof.
  induction file_sizes as [|size rest IH]; intros acc w results w1 Hs.
  - inversion Hs; subst. exists []. rewrite !app_nil_r.
    split; [reflexivity|]. split; [reflexivity|].
    split; [intros x Hx; inversion Hx|]. split; reflexivity.
  - simpl in Hs. apply bind_Ok in Hs as (x & w0 & Hrun & Hs).
    apply download_run_Ok in Hrun as ((t & v & ->) & Ht & Hf).
    apply IH in Hs as (rows & -> & Hrows & Hcfg & Ht' & Hf').
    exists (SizeSweep.mk_row size t v config :: rows). rewrite <- app_assoc. simpl.
    split; [reflexivity|]. split; [rewrite Hrows; reflexivity|].
    split.
    { intros y Hy. apply elem_of_cons in Hy as [->|Hy]; [|auto].
      exists t, v. reflexivity. }
    rewrite Ht', Ht, <- app_assoc, Hf', Hf. auto.
Qed.

Lemma upload_sweep_Ok s3 bucket_name config file_sizes :
  forall acc w results w1,
  Upload.sweep s3 bucket_name config file_sizes acc w = (Ok results, w1) ->
  exists rows,
    results = acc ++ rows /\
    List.map SizeSweep.size rows = file_sizes /\
    (forall x, x ∈ rows ->
       0 <= SizeSweep.size x /\
       exists t v, x = SizeSweep.mk_row (SizeSweep.size x) t v config) /\
    transfers w1 = transfers w ++
      List.map (fun size =>
                  Boto.upload_file ("dummy_" +:+ pretty size +:+ "mb.txt") bucket_name
                    ("example_" +:+ pretty size +:+ "mb.txt") config) file_sizes /\
    figures w1 = figures w.
Proof.
  induction file_sizes as [|size rest IH]; intros acc w results w1 Hs.
  - inversion Hs; subst. exists []. rewrite !app_nil_r.
    split; [reflexivity|]. split; [reflexivity|].
    split; [intros x Hx; inversion Hx|]. split; reflexivity.
  - simpl in Hs. apply bind_Ok in Hs as (x & w0 & Hrun & Hs).
    apply upload_run_Ok in Hrun as (Hsize & (t & v & ->) & Ht & Hf).
    apply IH in Hs as (rows & -> & Hrows & Hcfg & Ht' & Hf').
    exists (SizeSweep.mk_row size t v config :: rows). rewrite <- app_assoc. simpl.
    split; [reflexivity|]. split; [rewrite Hrows; reflexivity|].
    split.
    { intros y Hy. apply elem_of_cons in Hy as [->|Hy]; [|auto].
      split; [exact Hsize|]. exists t, v. reflexivity. }
    rewrite Ht', Ht, <- app_assoc, Hf', Hf. auto.
Qed.

Lemma download_main_outcome `{FloatRepr} env s3 timestamp w :
  Download.main env s3 timestamp w =
    match SizeSweep.settings env with
    | Raise e => (Raise e, w)
    | Ok (file_sizes, config) =>
        match Download.sweep s3 (getenv env "S3_BUCKET_NAME") config file_sizes [] w with
        | (Raise e, w0) => (Raise e, w0)
        | (Ok results, w0) =>
            (Ok tt,
             {| fs := <[("download_results_" +:+ timestamp +:+ ".csv")%string
                          := Text (Csv.writerow Download.header
                                     +:+ Csv.writerows (List.map SizeSweep.values results))]>
                        (fs w0);
                now := now w0; transfers := transfers w0;
                figures := figures w0 ++
                  [(("download_speeds_" +:+ timestamp +:+ ".png")%string,
                    Line (List.map SizeSweep.size results)
                      (List.map SizeSweep.speed_mbps results))] |})
        end
    end.
Proof.
  unfold Download.main, lift. unfold mbind at 1, M_bind.
  destruct (SizeSweep.settings env) as [[file_sizes config]|e]; [|reflexivity].
  unfold mbind, M_bind.
  destruct (Download.sweep _ _ _ _ _ _) as [[results|e] w0]; reflexivity.
Qed.

Lemma upload_main_outcome `{FloatRepr} env s3 timestamp w :
  Upload.main env s3 timestamp w =
    match SizeSweep.settings env with
    | Raise e => (Raise e, w)
    | Ok (file_sizes, config) =>
        match Upload.sweep s3 (getenv env "S3_BUCKET_NAME") config file_sizes [] w with
        | (Raise e, w0) => (Raise e, w0)
        | (Ok results, w0) =>
            (Ok tt,
             {| fs := <[("upload_results_" +:+ timestamp +:+ ".csv")%string
                          := Text (Csv.writerow Upload.header
                                     +:+ Csv.writerows (List.map SizeSweep.values results))]>
                        (fs w0);
                now := now w0; transfers := transfers w0;
                figures := figures w0 ++
                  [(("upload_speeds_" +:+ timestamp +:+ ".png")%string,
                    Line (List.map SizeSweep.size results)
                      (List.map SizeSweep.speed_mbps results))] |})
        end
    end.
Proof.
  unfold Upload.main, lift. unfold mbind at 1, M_bind.
  destruct (SizeSweep.settings env) as [[file_sizes config]|e]; [|reflexivity].
  unfold mbind, M_bind.
  destruct (Upload.sweep _ _ _ _ _ _) as [[results|e] w0]; reflexivity.
Qed.

(** X5. A run of the download script that succeeds has made one transfer
    per configured size, in the order of FILE_SIZES, each for the object
    and the local path named after its size and all with the one transfer
    configuration of the settings; it has recorded one row per size, in
    that order and carrying that configuration, written them under the
    header to the timestamped table, and saved one line chart of speed
    against size. *)
Theorem download_main_one_row_per_size `{FloatRepr} env s3 timestamp w w1 :
  Download.main env s3 timestamp w = (Ok tt, w1) ->
  exists file_sizes config results,
    SizeSweep.settings env = Ok (file_sizes, config) /\
    List.map SizeSweep.size results = file_sizes /\
    (forall x, x ∈ results ->
       exists t v, x = SizeSweep.mk_row (SizeSweep.size x) t v config) /\
    transfers w1 = transfers w ++
      List.map (fun size =>
                  Boto.download_file (getenv env "S3_BUCKET_NAME")
                    ("example_" +:+ pretty size +:+ "mb.txt")
                    ("downloaded_" +:+ pretty size +:+ "mb.txt") config) file_sizes /\
    fs w1 !! ("download_results_" +:+ timestamp +:+ ".csv")%string
      = Some (Text (Csv.writerow Download.header
                      +:+ Csv.writerows (List.map SizeSweep.values results))) /\
    figures w1 = figures w ++
      [(("download_speeds_" +:+ timestamp +:+ ".png")%string,
        Line file_sizes (List.map SizeSweep.speed_mbps results))].
Proof.
  rewrite download_main_outcome.
  destruct (SizeSweep.settings env) as [[file_sizes config]|e]; [|discriminate].
  destruct (Download.sweep _ _ _ _ _ _) as [[results|e] w0] eqn:Es; [|discriminate].
  intros Hm. inversion Hm; subst; clear Hm. simpl.
  apply download_sweep_Ok in Es as (rows & -> & Hrows & Hcfg & Ht & Hf).
  simpl. exists file_sizes, config, rows.
  split; [reflexivity|]. split; [exact Hrows|]. split; [exact Hcfg|].
  split; [exact Ht|]. split; [apply lookup_insert_eq|].
  rewrite Hf, Hrows. reflexivity.
Qed.

Lemma download_main_one_row_per_size_witness :
  let env : gmap string string := {["FILE_SIZES"%string := "1,5,2"%string]} in
  exists w1 results,
    @Download.main Samples.repr2 env (Samples.steady 1000000) "t" Samples.start
      = (Ok tt, w1) /\
    List.map SizeSweep.size results = [1; 5; 2] /\
    fs w1 !! "download_results_t.csv"%string
      = Some (Text (@Csv.writerow Samples.repr2 Download.header
                      +:+ @Csv.writerows Samples.repr2 (List.map SizeSweep.values results))).
Proof.
  intros env.
  destruct (@Download.main Samples.repr2 env (Samples.steady 1000000) "t" Samples.start)
    as [[[]|e] w1] eqn:Em; [|vm_compute in Em; discriminate].
  destruct (@download_main_one_row_per_size Samples.repr2 _ _ _ _ _ Em)
    as (file_sizes & config & results & Hset & Hsizes & _ & _ & Hcsv & _).
  exists w1, results. split; [reflexivity|].
  vm_compute in Hset. inversion Hset as [[Hfs Hcfg]].
  rewrite <- Hfs in Hsizes. split; [exact Hsizes|exact Hcsv].
Defined.

(** X6. A run of the upload script that succeeds has, for each configured
    size in the order of FILE_SIZES, uploaded the dummy file named after
    the size to the object named after it, with the one transfer
    configuration of the settings; every size is non-negative, and one row
    per size is recorded, written to the timestamped table and charted. *)
Theorem upload_main_one_row_per_size `{FloatRepr} env s3 timestamp w w1 :
  Upload.main env s3 timestamp w = (Ok tt, w1) ->
  exists file_sizes config results,
    SizeSweep.settings env = Ok (file_sizes, config) /\
    List.map SizeSweep.size results = file_sizes /\
    (forall x, x ∈ results ->
       0 <= SizeSweep.size x /\
       exists t v, x = SizeSweep.mk_row (SizeSweep.size x) t v config) /\
    transfers w1 = transfers w ++
      List.map (fun size =>
                  Boto.upload_file ("dummy_" +:+ pretty size +:+ "mb.txt")
                    (getenv env "S3_BUCKET_NAME")
                    ("example_" +:+ pretty size +:+ "mb.txt") config) file_sizes /\
    fs w1 !! ("upload_results_" +:+ timestamp +:+ ".csv")%string
      = Some (Text (Csv.writerow Upload.header
                      +:+ Csv.writerows (List.map SizeSweep.values results))) /\
    figures w1 = figures w ++
      [(("upload_speeds_" +:+ timestamp +:+ ".png")%string,
        Line file_sizes (List.map SizeSweep.speed_mbps results))].
Proof.
  rewrite upload_main_outcome.
  destruct (SizeSweep.settings env) as [[file_sizes config]|e]; [|discriminate].
  destruct (Upload.sweep _ _ _ _ _ _) as [[results|e] w0] eqn:Es; [|discriminate].
  intros Hm. inversion Hm; subst; clear Hm. simpl.
  apply upload_sweep_Ok in Es as (rows & -> & Hrows & Hcfg & Ht & Hf).
  simpl. exists file_sizes, config, rows.
  split; [reflexivity|]. split; [exact Hrows|]. split; [exact Hcfg|].
  split; [exact Ht|]. split; [apply lookup_insert_eq|].
  rewrite Hf, Hrows. reflexivity.
Qed.

Lemma upload_main_one_row_per_size_witness :
  let env : gmap string string := {["FILE_SIZES"%string := "1,0,2"%string]} in
  exists w1 results,
    @Upload.main Samples.repr2 env (Samples.steady 0) "t" Samples.start = (Ok tt, w1) /\
    List.map SizeSweep.size results = [1; 0; 2] /\
    length (transfers w1) = 3%nat.
Proof.
  intros env.
  destruct (@Upload.main Samples.repr2 env (Samples.steady 0) "t" Samples.start)
    as [[[]|e] w1] eqn:Em; [|vm_compute in Em; discriminate].
  destruct (@upload_main_one_row_per_size Samples.repr2 _ _ _ _ _ Em)
    as (file_sizes & config & results & Hset & Hsizes & _ & Ht & _).
  exists w1, results. split; [reflexivity|].
  vm_compute in Hset. inversion Hset as [[Hfs Hcfg]].
  rewrite <- Hfs in Hsizes, Ht.
  split; [exact Hsizes|]. rewrite Ht. reflexivity.
Defined.

End SizeSweeps.

(** ** The local file of a run *)

Section LocalFiles.
Import Py Sys.

(** X8. A run that completes leaves its local file removed and every other
    file as the client left it: the downloaded file in the tuning and
    download scripts, the dummy file in the upload script. *)
Theorem completed_run_removes_its_file s3 bucket_name config w :
  (forall object_key download_path c x w1,
     Tune.run s3 bucket_name object_key download_path c w = (Ok x, w1) ->
     fs w1 = delete download_path
               (files_after (s3 (Boto.download_file bucket_name object_key download_path
                                   (Tune.config_of c)) (fs w) (now w)))) /\
  (forall size x w1,
     Download.run s3 bucket_name config size w = (Ok x, w1) ->
     fs w1 = delete ("downloaded_" +:+ pretty size +:+ "mb.txt")%string
               (files_after
                  (s3 (Boto.download_file bucket_name
                         ("example_" +:+ pretty size +:+ "mb.txt")
                         ("downloaded_" +:+ pretty size +:+ "mb.txt") config)
                     (fs w) (now w)))) /\
  (forall size x w1,
     Upload.run s3 bucket_name config size w = (Ok x, w1) ->
     fs w1 = delete ("dummy_" +:+ pretty size +:+ "mb.txt")%string
               (files_after
                  (s3 (Boto.upload_file ("dummy_" +:+ pretty size +:+ "mb.txt")
                         bucket_name ("example_" +:+ pretty size +:+ "mb.txt") config)
                     (<[("dummy_" +:+ pretty size +:+ "mb.txt")%string
                          := Blob (size * 1024 * 1024)]>
                        (<[("dummy_" +:+ pretty size +:+ "mb.txt")%string := Blob 0]>
                           (fs w)))
                     (now w)))).
Proof.
  split; [|split].
  - intros object_key download_path c x w1. rewrite tune_run_outcome. simpl.
    destruct (raised _); [discriminate|].
    destruct (files_after _ !! _); [|discriminate].
    destruct (Tune.calculate_speed _ _); [|discriminate].
    intros Hx. inversion Hx. reflexivity.
  - intros size x w1. rewrite download_run_outcome. simpl.
    destruct (raised _); [discriminate|].
    destruct (files_after _ !! _); [|discriminate].
    destruct (Download.calculate_speed _ _); [|discriminate].
    intros Hx. inversion Hx. reflexivity.
  - intros size x w1. rewrite upload_run_outcome. simpl.
    destruct (size * 1024 * 1024 <? 0); [discriminate|].
    destruct (raised _); [discriminate|].
    destruct (files_after _ !! _); [|discriminate].
    destruct (Upload.calculate_speed _ _); [|discriminate].
    intros Hx. inversion Hx. reflexivity.
Qed.

Lemma completed_run_removes_its_file_witness :
  exists x w1,
    Upload.run (Samples.steady 0) None Cases.config 3 Samples.start = (Ok x, w1) /\
    fs w1 !! "dummy_3mb.txt"%string = None.
Proof.
  destruct (Upload.run (Samples.steady 0) None Cases.config 3 Samples.start)
    as [[x|e] w1] eqn:Er; [|vm_compute in Er; discriminate].
  exists x, w1. split; [reflexivity|].
  destruct (completed_run_removes_its_file (Samples.steady 0) None Cases.config
              Samples.start) as (_ & _ & Hup).
  rewrite (Hup _ _ _ Er). apply lookup_delete_eq.
Defined.





End LocalFiles.

(** ** Degenerate durations and the sign of a speed *)

Section Durations.
Import Py Sys.

Lemma file_bits_in_range file_size :
  0 <= file_size < 2 ^ 63 -> 0 <= file_size * 8 < 2 ^ 1023.
Proof.
  intros Hs. split; [lia|]. apply Z.lt_trans with (2 ^ 66); [|reflexivity].
  change (2 ^ 66) with (2 ^ 63 * 8). lia.
Qed.

Lemma speed_raises_at_zero n t :
  0 <= n < 2 ^ 1023 -> (t =? 0)%float = true ->
  (speed_bps ← int_truediv_float n t;
   speed_mbps ← float_truediv speed_bps 1e6;
   mret speed_mbps) = Raise ZeroDivisionError.
Proof.
  intros Hn Ht. unfold int_truediv_float, float_truediv.
  rewrite (int_to_float_Ok n Hn). simpl. rewrite Ht. reflexivity.
Qed.

(** X11. With a duration of zero, of either sign, [calculate_speed] raises
    [ZeroDivisionError] for every file size, in each of the three
    scripts: no infinite or undefined speed is returned. *)
Theorem calculate_speed_zero_duration (time_taken : float) (file_size : Z) :
  0 <= file_size < 2 ^ 63 ->
  (time_taken =? 0)%float = true ->
  Download.calculate_speed time_taken file_size = Raise ZeroDivisionError /\
  Upload.calculate_speed time_taken file_size = Raise ZeroDivisionError /\
  Tune.calculate_speed time_taken file_size = Raise ZeroDivisionError.
Proof.
  intros Hs Hz. apply file_bits_in_range in Hs.
  unfold Download.calculate_speed, Upload.calculate_speed, Tune.calculate_speed.
  rewrite (speed_raises_at_zero _ _ Hs Hz). auto.
Qed.

Lemma calculate_speed_zero_duration_witness :
  (0 <= 1048576 < 2 ^ 63) /\ (-0 =? 0)%float = true /\
  Tune.calculate_speed (-0) 1048576 = Raise ZeroDivisionError.
Proof.
  split; [lia|]. split; [reflexivity|].
  apply (calculate_speed_zero_duration (-0) 1048576); [lia|reflexivity].
Defined.

Lemma float_sub_self x : is_finite x = true -> (x - x =? 0)%float = true.
Proof.
  intros Hx. apply finite_spec in Hx as [Hn Hi].
  rewrite FloatAxioms.eqb_spec, sub_spec. unfold SF64sub, SFsub.
  destruct (Prim2SF x) as [s|s| |s m e].
  - destruct s; reflexivity.
  - exfalso. apply (Hi s). reflexivity.
  - congruence.
  - rewrite Z.sub_diag. reflexivity.
Qed.

(** X12. When the clock reads the same finite time after a download as
    before it, the run fails with [ZeroDivisionError] after the transfer:
    no row is recorded and the downloaded file is not removed. *)
Theorem download_run_zero_duration s3 bucket_name config size w f :
  let download_path := ("downloaded_" +:+ pretty size +:+ "mb.txt")%string in
  let req := Boto.download_file bucket_name ("example_" +:+ pretty size +:+ "mb.txt")
               download_path config in
  let e := s3 req (fs w) (now w) in
  raised e = None ->
  clock_after e = now w ->
  is_finite (now w) = true ->
  files_after e !! download_path = Some f ->
  0 <= file_size f < 2 ^ 63 ->
  Download.run s3 bucket_name config size w
    = (Raise ZeroDivisionError, Cases.after_call w req e) /\
  fs (Cases.after_call w req e) !! download_path = Some f.
Proof.
  intros download_path req e Hr Hc Hfin Hf Hsize.
  rewrite download_run_outcome. fold download_path req e.
  rewrite Hr, Hf, Hc. unfold Download.calculate_speed.
  rewrite (speed_raises_at_zero _ _ (file_bits_in_range _ Hsize) (float_sub_self _ Hfin)).
  split; [reflexivity|exact Hf].
Qed.

Lemma download_run_zero_duration_witness :
  exists w1,
    Download.run (Cases.instant 1000) None Cases.config 5 Samples.start
      = (Raise ZeroDivisionError, w1) /\
    fs w1 !! "downloaded_5mb.txt"%string = Some (Blob 1000).
Proof.
  eexists.
  apply (download_run_zero_duration (Cases.instant 1000) None Cases.config 5
           Samples.start (Blob 1000)); try reflexivity.
  simpl. lia.
Defined.

End Durations.

Section SpeedSign.
Import Py Sys.

Lemma binary_round_aux_nonneg m e l :
  0 <= m -> SFleb (S754_zero false) (binary_round_aux prec emax false m e l) = true.
Proof.
  intros Hm. unfold binary_round_aux.
  pose proof (shr_fexp_nonneg m e l Hm) as H1.
  destruct (shr_fexp prec emax m e l) as [mrs1 e1]. simpl in H1.
  pose proof (round_nearest_even_bounds (shr_m mrs1) (loc_of_shr_record mrs1)) as Hb.
  pose proof (shr_fexp_nonneg
                (round_nearest_even (shr_m mrs1) (loc_of_shr_record mrs1))
                e1 loc_Exact ltac:(lia)) as H2.
  destruct (shr_fexp prec emax _ e1 loc_Exact) as [mrs2 e2]. simpl in H2.
  destruct (shr_m mrs2); [reflexivity| |lia].
  destruct (e2 <=? emax - prec); reflexivity.
Qed.

Lemma SF64div_nonneg x y :
  SFleb (S754_zero false) x = true ->
  SFltb (S754_zero false) y = true ->
  (forall s, x <> S754_infinity s) \/ (forall s, y <> S754_infinity s) ->
  SFleb (S754_zero false) (SF64div x y) = true.
Proof.
  intros Hx Hy Hinf. unfold SF64div, SFdiv.
  destruct x as [sx|[]| |[] mx ex], y as [sy|[]| |[] my ey];
    try discriminate; try reflexivity.
  - exfalso. destruct Hinf as [Hi|Hi]; apply (Hi false); reflexivity.
  - unfold SFdiv_core_binary.
    set (m' := match _ - _ - _ with Z0 => _ | Zpos _ => _ | Zneg _ => _ end).
    assert (Hm' : 0 <= m').
    { subst m'. destruct (_ - _ - _); try lia. apply Z.shiftl_nonneg. lia. }
    pose proof (Z_div_mod m' (Zpos my) ltac:(lia)) as Hdiv.
    destruct (Z.div_eucl m' (Zpos my)) as [q r].
    apply binary_round_aux_nonneg. nia.
Qed.

Lemma float_div_nonneg x y :
  (0 <=? x)%float = true -> (0 <? y)%float = true ->
  is_infinity x = false \/ is_infinity y = false ->
  (0 <=? x / y)%float = true.
Proof.
  rewrite !FloatAxioms.leb_spec, FloatAxioms.ltb_spec, div_spec.
  intros Hx Hy Hinf. apply SF64div_nonneg; auto.
  destruct Hinf; [left|right]; auto using not_infinity_spec.
Qed.

Lemma of_Z_nonneg n : 0 <= n < 2 ^ 1023 -> (0 <=? of_Z n)%float = true.
Proof.
  intros Hn. destruct (Z.eq_dec n 0) as [->|Hne]; [reflexivity|].
  destruct (binary_normalize_finite n) as (m & e & Hb & Hv); [lia|].
  rewrite FloatAxioms.leb_spec. unfold of_Z. rewrite Hb.
  rewrite (Prim2SF_SF2Prim _ Hv). reflexivity.
Qed.

Lemma leb_not_nan x y : (x <=? y)%float = true -> is_nan y = false.
Proof.
  rewrite FloatAxioms.leb_spec, not_nan_spec. unfold SFleb. intros Hle Hn.
  rewrite Hn in Hle. destruct (Prim2SF x); discriminate.
Qed.

(** X13. For the size of a file and a positive duration, the speed that
    [calculate_speed] returns is a number and is not negative, in each of
    the three scripts. *)
Theorem calculate_speed_nonnegative (time_taken : float) (file_size : Z) (v : float) :
  0 <= file_size < 2 ^ 63 ->
  (0 <? time_taken)%float = true ->
  Download.calculate_speed time_taken file_size = Ok v \/
  Upload.calculate_speed time_taken file_size = Ok v \/
  Tune.calculate_speed time_taken file_size = Ok v ->
  (0 <=? v)%float = true /\ is_nan v = false.
Proof.
  intros Hs Ht Hv.
  assert (Hc : Tune.calculate_speed time_taken file_size = Ok v)
    by (destruct Hv as [Hv|[Hv|Hv]]; exact Hv).
  clear Hv. apply file_bits_in_range in Hs.
  unfold Tune.calculate_speed, int_truediv_float, float_truediv in Hc.
  rewrite (int_to_float_Ok _ Hs) in Hc. simpl in Hc.
  rewrite (positive_nonzero _ Ht) in Hc. simpl in Hc.
  inversion Hc; subst; clear Hc.
  destruct (of_Z_finite _ Hs) as [Hfin _].
  assert (Hle : (0 <=? of_Z (file_size * 8) / time_taken / 1e6)%float = true).
  { apply float_div_nonneg; [|reflexivity|right; reflexivity].
    apply float_div_nonneg; [apply of_Z_nonneg, Hs|exact Ht|left; exact Hfin]. }
  split; [exact Hle|eapply leb_not_nan, Hle].
Qed.

Lemma calculate_speed_nonnegative_witness :
  exists v, Tune.calculate_speed 2 104857600 = Ok v /\ (0 <=? v)%float = true.
Proof.
  destruct (Tune.calculate_speed 2 104857600) as [v|e] eqn:Ev;
    [|vm_compute in Ev; discriminate].
  exists v. split; [reflexivity|].
  apply (calculate_speed_nonnegative 2 104857600 v); [lia|reflexivity|auto].
Defined.

End SpeedSign.

(** ** The best configuration of a completed sweep *)

Section BestOfSweep.
Import Py Sys.

Lemma ticking_well_behaved n : well_behaved (Cases.ticking n).
Proof.
  intros bucket key path config files clock Hfin. simpl. split.
  - destruct (is_finite (clock + 1)) eqn:E; [exact E|exact Hfin].
  - intros f. rewrite lookup_insert_eq. intros Hf. inversion Hf. simpl.
    assert (0 < 2 ^ 63) by reflexivity. lia.
Qed.

(** X14. In a tuning sweep that completes against a client that keeps the
    clock finite and stores files of a valid size, every recorded speed is
    a number, and the document that [find_fastest_parameters] returns is
    that of a row whose speed is at least every recorded speed and
    strictly above the speed of every earlier row. *)
Theorem tune_sweep_best_is_fastest s3 bucket_name object_key download_path
    (parameter_combinations : list (Z * Z * Z * string)) w results w1 document :
  well_behaved s3 ->
  is_finite (now w) = true ->
  Tune.sweep s3 bucket_name object_key download_path parameter_combinations [] w
    = (Ok results, w1) ->
  Tune.find_fastest_parameters results = Ok document ->
  (forall x, x ∈ results -> is_nan (Tune.speed_mbps x) = false) /\
  exists i best,
    results !! i = Some best /\
    document !! 5%nat
      = Some ("Download Speed (Mbps)"%string, Float (Tune.speed_mbps best)) /\
    document !! 3%nat = Some ("Use Threads"%string, Str (Tune.use_threads best)) /\
    (forall x, x ∈ results ->
       (Tune.speed_mbps x <=? Tune.speed_mbps best)%float = true) /\
    (forall j x, (j < i)%nat -> results !! j = Some x ->
       (Tune.speed_mbps x <? Tune.speed_mbps best)%float = true).
Proof.
  intros Hs3 Hfin Hs Hdoc.
  assert (Hnan : forall x, x ∈ results -> is_nan (Tune.speed_mbps x) = false).
  { eapply tune_sweep_speeds_not_nan; [exact Hs3|exact Hfin| |exact Hs].
    intros x Hx. inversion Hx. }
  split; [exact Hnan|].
  unfold Tune.find_fastest_parameters in Hdoc.
  destruct results as [|x0 rest]; [discriminate|]. simpl in Hdoc.
  inversion Hdoc; subst; clear Hdoc.
  destruct (max_loop_spec Tune.speed_mbps rest [x0] x0 0%nat) as (i & Hi & Hmax & Hfirst).
  - reflexivity.
  - intros x Hx. apply list_elem_of_singleton in Hx as ->. apply ltb_irrefl.
  - intros j x Hj. lia.
  - simpl in Hi, Hmax, Hfirst.
    exists i, (max_loop Tune.speed_mbps x0 rest).
    assert (Hb : is_nan (Tune.speed_mbps (max_loop Tune.speed_mbps x0 rest)) = false).
    { apply Hnan. apply list_elem_of_lookup. eauto. }
    split; [exact Hi|]. split; [reflexivity|]. split; [reflexivity|]. split.
    + intros x Hx. apply not_ltb_leb; auto.
    + intros j x Hj Hx. apply not_leb_ltb; eauto.
      apply Hnan. apply list_elem_of_lookup. eauto.
Qed.

Lemma tune_sweep_best_is_fastest_witness :
  let combos := product [8; 16] [10] [8] ["True"; "no"]%string in
  exists results w1 document,
    Tune.sweep (Cases.ticking 1000000) None "k" "p" combos [] Samples.start
      = (Ok results, w1) /\
    Tune.find_fastest_parameters results = Ok document /\
    (forall x, x ∈ results -> is_nan (Tune.speed_mbps x) = false).
Proof.
  intros combos.
  destruct (Tune.sweep (Cases.ticking 1000000) None "k" "p" combos [] Samples.start)
    as [[results|e] w1] eqn:Es; [|vm_compute in Es; discriminate].
  destruct (Tune.find_fastest_parameters results) as [document|e] eqn:Ed.
  2:{ vm_compute in Es. inversion Es; subst. vm_compute in Ed. discriminate. }
  exists results, w1, document. split; [reflexivity|]. split; [exact Ed|].
  apply (tune_sweep_best_is_fastest (Cases.ticking 1000000) None "k"%string "p"%string
           combos Samples.start results w1 document
           (ticking_well_behaved 1000000) eq_refl Es Ed).
Defined.

End BestOfSweep.

(** ** The best configuration, one result at a time *)

Section Incremental.
Import Py.

Lemma max_loop_app {A} (key : A -> float) (l : list A) :
  forall b x,
  max_loop key b (l ++ [x])
    = if (key (max_loop key b l) <? key x)%float then x else max_loop key b l.
Proof.
  induction l as [|y l IH]; intros b x; simpl; [reflexivity|].
  destruct (key b <? key y)%float; apply IH.
Qed.

(** X15. Appending one result to a non-empty result list changes the best
    configuration only when the new result is strictly faster than the
    current best, and then the new result is the best. *)
Theorem find_fastest_parameters_append (results : list Tune.row) (x : Tune.row)
    (document : list (string * value)) :
  Tune.find_fastest_parameters results = Ok document ->
  exists v,
    document !! 5%nat = Some ("Download Speed (Mbps)"%string, Float v) /\
    Tune.find_fastest_parameters (results ++ [x])
      = if (v <? Tune.speed_mbps x)%float
        then Tune.find_fastest_parameters [x]
        else Ok document.
Proof.
  unfold Tune.find_fastest_parameters.
  destruct results as [|x0 rest]; [discriminate|]. simpl.
  intros Hd. inversion Hd; subst; clear Hd.
  exists (Tune.speed_mbps (max_loop Tune.speed_mbps x0 rest)).
  split; [reflexivity|].
  rewrite max_loop_app.
  destruct (_ <? _)%float; reflexivity.
Qed.

Lemma find_fastest_parameters_append_witness :
  exists document,
    Tune.find_fastest_parameters Samples.tied = Ok document /\
    Tune.find_fastest_parameters (Samples.tied ++ [Samples.tuning_row 4 "no" 2 200])
      = Ok document /\
    Tune.find_fastest_parameters (Samples.tied ++ [Samples.tuning_row 4 "no" 1 400])
      = Tune.find_fastest_parameters [Samples.tuning_row 4 "no" 1 400].
Proof.
  destruct (Tune.find_fastest_parameters Samples.tied) as [document|e] eqn:Ed;
    [|discriminate].
  exists document. split; [reflexivity|].
  destruct (find_fastest_parameters_append Samples.tied
              (Samples.tuning_row 4 "no" 2 200) document Ed) as (v & Hv & ->).
  destruct (find_fastest_parameters_append Samples.tied
              (Samples.tuning_row 4 "no" 1 400) document Ed) as (v' & Hv' & ->).
  vm_compute in Ed. inversion Ed; subst; clear Ed.
  inversion Hv; subst. inversion Hv'; subst.
  split; reflexivity.
Defined.

End Incremental.

(** ** Reading a list of integers *)

Section IntegerLists.
Import Py.

Lemma plain_char_facts c :
  Cases.plain_char c = true ->
  is_space c = false /\ Ascii.eqb c "," = false /\ Ascii.eqb c "+" = false /\
  Ascii.eqb c "_" = false.
Proof.
  destruct c as [[] [] [] [] [] [] [] []]; vm_compute; intros Hc;
    first [discriminate Hc | auto].
Qed.

Lemma lstrip_plain s : Cases.plain s = true -> lstrip s = s.
Proof.
  destruct s as [|c r]; simpl; [reflexivity|].
  intros Hp. apply andb_true_iff in Hp as [Hc _].
  apply plain_char_facts in Hc as (-> & _). reflexivity.
Qed.

Lemma rstrip_plain s : Cases.plain s = true -> rstrip s = s.
Proof.
  induction s as [|c r IH]; simpl; [reflexivity|].
  intros Hp. apply andb_true_iff in Hp as [Hc Hr].
  rewrite (IH Hr). apply plain_char_facts in Hc as (-> & _).
  destruct r; reflexivity.
Qed.

Lemma strip_plain s : Cases.plain s = true -> strip s = s.
Proof.
  intros Hp. unfold strip. rewrite (lstrip_plain s Hp). apply rstrip_plain, Hp.
Qed.

Lemma pretty_N_char_digit d :
  (d < 10)%N ->
  is_digit (pretty_N_char d) = true /\ digit_value (pretty_N_char d) = Z.of_N d.
Proof.
  intros Hd.
  assert (d = 0 \/ d = 1 \/ d = 2 \/ d = 3 \/ d = 4 \/ d = 5 \/ d = 6 \/ d = 7
          \/ d = 8 \/ d = 9)%N as Hcases by lia.
  repeat (destruct Hcases as [->|Hcases]; [split; reflexivity|]).
  subst. split; reflexivity.
Qed.

Lemma plain_pretty_N_go x : forall s,
  Cases.plain s = true -> Cases.plain (pretty_N_go x s) = true.
Proof.
  induction (N.lt_wf_0 x) as [x _ IH]; intros s Hs.
  assert (x = 0 \/ 0 < x)%N as [->|Hx] by lia; [rewrite pretty_N_go_0; exact Hs|].
  rewrite pretty_N_go_step by exact Hx. apply IH; [apply N.div_lt; [exact Hx|reflexivity]|].
  simpl. rewrite Hs, andb_true_r. unfold Cases.plain_char.
  destruct (pretty_N_char_digit (x mod 10)) as [-> _]; [|reflexivity].
  apply N.mod_lt. discriminate.
Qed.

Lemma digits_pretty_N_go x : forall acc after_digit s,
  (0 < x)%N ->
  exists p, digits acc after_digit (pretty_N_go x s)
            = digits (acc * p + Z.of_N x) true s.
Proof.
  induction (N.lt_wf_0 x) as [x _ IH]; intros acc after_digit s Hx.
  rewrite pretty_N_go_step by exact Hx.
  destruct (pretty_N_char_digit (x mod 10)) as [Hd Hv]; [apply N.mod_lt; discriminate|].
  pose proof (N.div_mod x 10 ltac:(discriminate)) as Hx10.
  pose proof (N.div_lt x 10 Hx eq_refl) as Hlt.
  revert Hd Hv Hx10 Hlt.
  generalize (x mod 10)%N as r. generalize (x / 10)%N as q.
  intros q r Hd Hv Hx10 Hlt.
  destruct q as [|q].
  - rewrite pretty_N_go_0. simpl. rewrite Hd, Hv. exists 10.
    f_equal. lia.
  - destruct (IH (Npos q) Hlt acc after_digit (String (pretty_N_char r) s) eq_refl)
      as (p & ->).
    simpl. rewrite Hd, Hv. exists (10 * p). f_equal. lia.
Qed.

Lemma signed_digits body n :
  digits 0 false body = Some n ->
  match body with
  | String "+" r => digits 0 false r
  | String "-" r => Z.opp <$> digits 0 false r
  | _ => digits 0 false body
  end = Some n.
Proof.
  intros Hb. destruct body as [|c r]; [exact Hb|].
  destruct c as [[] [] [] [] [] [] [] []]; try exact Hb; simpl in Hb; discriminate Hb.
Qed.

(** [int(str(n)) == n] *)
Lemma int_pretty (n : Z) : int (pretty n) = Ok n.
Proof.
  assert (Hpos : forall p : positive,
            Cases.plain (pretty_N_go (Npos p) "") = true /\
            digits 0 false (pretty_N_go (Npos p) "") = Some (Zpos p)).
  { intros p. split; [apply plain_pretty_N_go; reflexivity|].
    destruct (digits_pretty_N_go (Npos p) 0 false "" ltac:(lia)) as (q & ->).
    simpl. reflexivity. }
  unfold int. destruct n as [|p|p].
  - reflexivity.
  - destruct (Hpos p) as [Hp Hd].
    change (pretty (Zpos p)) with (pretty_N_go (Npos p) "").
    rewrite (strip_plain _ Hp), (signed_digits _ _ Hd). reflexivity.
  - destruct (Hpos p) as [Hp Hd].
    change (pretty (Zneg p)) with (String "-" (pretty_N_go (Npos p) "")).
    rewrite strip_plain by (simpl; exact Hp).
    rewrite Hd. reflexivity.
Qed.

Lemma plain_pretty (n : Z) : Cases.plain (pretty n) = true.
Proof.
  destruct n as [|p|p]; [reflexivity| |].
  - change (pretty (Zpos p)) with (pretty_N_go (Npos p) "").
    apply plain_pretty_N_go. reflexivity.
  - change (pretty (Zneg p)) with (String "-" (pretty_N_go (Npos p) "")).
    simpl. apply plain_pretty_N_go. reflexivity.
Qed.

Lemma split_plain s : Cases.plain s = true -> split "," s = [s].
Proof.
  induction s as [|c r IH]; simpl; [reflexivity|].
  intros Hp. apply andb_true_iff in Hp as [Hc Hr].
  apply plain_char_facts in Hc as (_ & -> & _). rewrite (IH Hr). reflexivity.
Qed.

Lemma split_plain_comma s rest :
  Cases.plain s = true -> split "," (s +:+ String "," rest) = s :: split "," rest.
Proof.
  induction s as [|c r IH]; simpl; [reflexivity|].
  intros Hp. apply andb_true_iff in Hp as [Hc Hr].
  apply plain_char_facts in Hc as (_ & -> & _). rewrite (IH Hr). reflexivity.
Qed.

Lemma split_concat (l : list string) :
  l <> [] -> Forall (fun s => Cases.plain s = true) l ->
  split "," (String.concat "," l) = l.
Proof.
  induction l as [|s l IH]; [congruence|]. intros _ Hall.
  apply Forall_cons in Hall as [Hs Hl].
  destruct l as [|s' l'].
  - simpl. apply split_plain, Hs.
  - change (String.concat "," (s :: s' :: l'))
      with (s +:+ String "," (String.concat "," (s' :: l'))).
    rewrite (split_plain_comma _ _ Hs), IH; [reflexivity|discriminate|exact Hl].
Qed.

Lemma list_map_int_pretty (l : list Z) : list_map int (List.map pretty l) = Ok l.
Proof.
  induction l as [|n l IH]; simpl; [reflexivity|].
  rewrite int_pretty. simpl. rewrite IH. reflexivity.
Qed.

(** X16. A list variable whose text is the decimal integers of a non-empty
    list, joined by commas, is read back as that list, in order: by the
    tuning script for its three numeric lists and by the size sweeps for
    FILE_SIZES. The integers are taken below [10^4300] in absolute value,
    the longest digit strings that every version of [int] accepts. *)
Theorem int_list_reads_joined_integers (l : list Z) :
  l <> [] ->
  Forall (fun n => Z.abs n < 10 ^ 4300) l ->
  Tune.int_list (Some (String.concat "," (List.map pretty l))) = Ok l /\
  fst <$> SizeSweep.settings
            {["FILE_SIZES"%string := String.concat "," (List.map pretty l)]}
    = Ok l.
Proof.
  intros Hl _.
  assert (Hsplit : split "," (String.concat "," (List.map pretty l)) = List.map pretty l).
  { apply split_concat; [destruct l; [congruence|discriminate]|].
    apply Forall_forall. intros s Hs. apply list_elem_of_In, in_map_iff in Hs as (n & <- & _).
    apply plain_pretty. }
  split.
  - simpl. rewrite Hsplit. apply list_map_int_pretty.
  - unfold SizeSweep.settings, Sys.getenv. rewrite lookup_singleton_eq. simpl default.
    rewrite Hsplit, list_map_int_pretty. reflexivity.
Qed.

Lemma int_list_reads_joined_integers_witness :
  Tune.int_list (Some "100,-5,1024"%string) = Ok [100; -5; 1024].
Proof.
  apply (int_list_reads_joined_integers [100; -5; 1024]); [discriminate|].
  repeat constructor.
Defined.

End IntegerLists.

(** ** Failures of the size sweeps, and what a download row measures *)

Section SizeSweepFailures.
Import Py Sys.









(** X17. The row of a download run that completes holds the configured
    size in MB, the clock difference across the client call as its time,
    and as its speed [calculate_speed] of that time and of the byte size
    of the local file as it is after the transfer. *)
Theorem download_run_measures_after_transfer s3 bucket_name config size w x w1 :
  Download.run s3 bucket_name config size w = (Ok x, w1) ->
  let download_path := ("downloaded_" +:+ pretty size +:+ "mb.txt")%string in
  let e := s3 (Boto.download_file bucket_name ("example_" +:+ pretty size +:+ "mb.txt")
                 download_path config) (fs w) (now w) in
  SizeSweep.size x = size /\
  SizeSweep.time_taken x = (clock_after e - now w)%float /\
  exists f,
    files_after e !! download_path = Some f /\
    Download.calculate_speed (SizeSweep.time_taken x) (file_size f)
      = Ok (SizeSweep.speed_mbps x).
Proof.
  rewrite download_run_outcome. simpl.
  destruct (raised _); [discriminate|].
  destruct (files_after _ !! _) as [f|] eqn:Ef; [|discriminate].
  destruct (Download.calculate_speed _ _) as [v|] eqn:Ev; [|discriminate].
  intros Hx. inversion Hx; subst; clear Hx. simpl.
  split; [reflexivity|]. split; [reflexivity|]. exists f. auto.
Qed.

(** A 5 MB object of which 1000 bytes arrive in one second: the row says
    5 and the speed is that of 1000 bytes. *)
Lemma download_run_measures_after_transfer_witness :
  exists x w1,
    Download.run (Samples.steady 1000) None Cases.config 5 Samples.start = (Ok x, w1) /\
    SizeSweep.size x = 5 /\
    Download.calculate_speed (SizeSweep.time_taken x) 1000 = Ok (SizeSweep.speed_mbps x).
Proof.
  destruct (Download.run (Samples.steady 1000) None Cases.config 5 Samples.start)
    as [[x|e] w1] eqn:Er; [|vm_compute in Er; discriminate].
  exists x, w1. split; [reflexivity|].
  destruct (download_run_measures_after_transfer _ _ _ _ _ _ _ Er)
    as (Hsize & _ & f & Hf & Hv).
  split; [exact Hsize|].
  vm_compute in Hf. inversion Hf; subst. exact Hv.
Defined.

End SizeSweepFailures.
